(** * Multi-GPU core of dxvk-nvapi: device registry, frame distributor,
      cross-device synchronizer and memory placement manager.

    Shallow embedding of [src/vk_multigpu_device.cpp] and
    [src/vk_multigpu_support.cpp].  Unsigned 32-bit values are integers
    with their wrap-around written out; [std::vector] is a list indexed
    with stdpp's lookup; [std::map] is a [gmap]. *)

From Stdlib Require Import ZArith List Lia Bool.
From stdpp Require Import base tactics option list list_numbers strings gmap relations.

Local Open Scope Z_scope.

(** ** Machine integers and handles *)

Definition UINT32_MAX : Z := 2 ^ 32 - 1.

(** Arithmetic on [uint32_t] is modulo [2^32]. *)
Definition wrap32 (z : Z) : Z := z mod 2 ^ 32.

Definition is_u32 (z : Z) : Prop := 0 <= z <= UINT32_MAX.

(** Vulkan handles are opaque words; the null handle is zero. *)
Definition VK_NULL_HANDLE : Z := 0.

(** [std::min] on unsigned values. *)
Definition std_min (a b : Z) : Z := if b <? a then b else a.

(** ** The Vulkan API seen from this code

    The header constants and the driver entry points are not part of the
    repository; they are parameters of the development.  Entry points that
    produce a value are answered by the driver; entry points that change
    driver state are in addition recorded as [DriverCall]s. *)

Record VkQueueFamilyProperties := { queueFlags : Z }.

Record VkDeviceQueueCreateInfo := {
  queueFamilyIndex : Z;
  queueCount : Z
}.

(** Handed to the driver as it is; the code reads none of its fields. *)
Record VkMemoryAllocateInfo := {
  allocationSize : Z;
  memoryTypeIndex : Z
}.

Inductive DriverCall :=
| CallCreateDevice (physicalDevice : Z) (infos : list VkDeviceQueueCreateInfo)
| CallDestroyDevice (device : Z)
| CallCreateCommandPool (device family flags : Z)
| CallAllocateMemory (device : Z) (info : VkMemoryAllocateInfo)
| CallFreeMemory (device memory : Z).

Class Vulkan := {
  VK_QUEUE_GRAPHICS_BIT : Z;
  VK_QUEUE_COMPUTE_BIT : Z;
  VK_QUEUE_TRANSFER_BIT : Z;
  VK_COMMAND_POOL_CREATE_RESET_COMMAND_BUFFER_BIT : Z;
  (** physical devices of an instance, in enumeration order *)
  vkEnumeratePhysicalDevices : Z -> list Z;
  (** [properties.deviceName] of a physical device *)
  vkGetPhysicalDeviceName : Z -> string;
  vkGetPhysicalDeviceQueueFamilyProperties : Z -> list VkQueueFamilyProperties;
  (** [Some device] on [VK_SUCCESS] *)
  vkCreateDevice : Z -> list VkDeviceQueueCreateInfo -> option Z;
  vkGetDeviceQueue : Z -> Z -> Z -> Z;
  (** [Some pool] on [VK_SUCCESS] *)
  vkCreateCommandPool : Z -> Z -> Z -> option Z;
  (** the handle written to [*pMemory]; the caller initialised it to null *)
  vkAllocateMemory : Z -> VkMemoryAllocateInfo -> Z
}.

(** ** GpuDeviceRegistry ([VkMultiGpuManager]) *)

Record VkGpuDevice := {
  deviceId : Z;
  physicalDevice : Z;
  logicalDevice : Z;
  graphicsQueue : Z;
  computeQueue : Z;
  transferQueue : Z;
  commandPool : Z;
  deviceName : string;
  graphicsQueueFamilyIndex : Z;
  computeQueueFamilyIndex : Z;
  transferQueueFamilyIndex : Z
}.

(** [VkGpuDevice gpuInfo = {}] *)
Definition VkGpuDevice_zero : VkGpuDevice :=
  {| deviceId := 0; physicalDevice := VK_NULL_HANDLE;
     logicalDevice := VK_NULL_HANDLE; graphicsQueue := VK_NULL_HANDLE;
     computeQueue := VK_NULL_HANDLE; transferQueue := VK_NULL_HANDLE;
     commandPool := VK_NULL_HANDLE; deviceName := "";
     graphicsQueueFamilyIndex := 0; computeQueueFamilyIndex := 0;
     transferQueueFamilyIndex := 0 |}.

Definition set_identity (id pd : Z) (name : string) (g : VkGpuDevice) : VkGpuDevice :=
  {| deviceId := id; physicalDevice := pd;
     logicalDevice := logicalDevice g; graphicsQueue := graphicsQueue g;
     computeQueue := computeQueue g; transferQueue := transferQueue g;
     commandPool := commandPool g; deviceName := name;
     graphicsQueueFamilyIndex := graphicsQueueFamilyIndex g;
     computeQueueFamilyIndex := computeQueueFamilyIndex g;
     transferQueueFamilyIndex := transferQueueFamilyIndex g |}.

Definition set_families (gi ci ti : Z) (g : VkGpuDevice) : VkGpuDevice :=
  {| deviceId := deviceId g; physicalDevice := physicalDevice g;
     logicalDevice := logicalDevice g; graphicsQueue := graphicsQueue g;
     computeQueue := computeQueue g; transferQueue := transferQueue g;
     commandPool := commandPool g; deviceName := deviceName g;
     graphicsQueueFamilyIndex := gi;
     computeQueueFamilyIndex := ci;
     transferQueueFamilyIndex := ti |}.

Definition set_device (dev gq cq tq pool : Z) (g : VkGpuDevice) : VkGpuDevice :=
  {| deviceId := deviceId g; physicalDevice := physicalDevice g;
     logicalDevice := dev; graphicsQueue := gq;
     computeQueue := cq; transferQueue := tq;
     commandPool := pool; deviceName := deviceName g;
     graphicsQueueFamilyIndex := graphicsQueueFamilyIndex g;
     computeQueueFamilyIndex := computeQueueFamilyIndex g;
     transferQueueFamilyIndex := transferQueueFamilyIndex g |}.

(** The registry.  [driverLog] is a ghost field: the state-changing driver
    calls issued through this object, oldest first.  The mutex is not
    modelled: calls are taken one at a time. *)
Record VkMultiGpuManager := {
  gpuDevices : list VkGpuDevice;
  vkInstance : Z;
  driverLog : list DriverCall
}.

Definition VkMultiGpuManager_new : VkMultiGpuManager :=
  {| gpuDevices := []; vkInstance := VK_NULL_HANDLE; driverLog := [] |}.

(** [static_cast<uint32_t>(gpuDevices.size())] *)
Definition GetActiveGpuCount (mgr : VkMultiGpuManager) : Z :=
  wrap32 (Z.of_nat (length (gpuDevices mgr))).

(** A pointer into [gpuDevices], or [None] for [nullptr]. *)
Definition GetGpuByIndex (mgr : VkMultiGpuManager) (index : Z) : option VkGpuDevice :=
  if index <? Z.of_nat (length (gpuDevices mgr))
  then gpuDevices mgr !! Z.to_nat index
  else None.

Definition GetAvailableGpus (mgr : VkMultiGpuManager) : list VkGpuDevice :=
  gpuDevices mgr.

Definition SupportsAsyncComputeOnGpu (mgr : VkMultiGpuManager) (gpuIndex : Z) : bool :=
  if Z.of_nat (length (gpuDevices mgr)) <=? gpuIndex then false
  else match gpuDevices mgr !! Z.to_nat gpuIndex with
       | Some gpu => negb (computeQueueFamilyIndex gpu =? UINT32_MAX)
       | None => false
       end.

Definition SupportsMemorySharing (mgr : VkMultiGpuManager) : bool :=
  2 <=? GetActiveGpuCount mgr.

Definition log_calls (calls : list DriverCall) (mgr : VkMultiGpuManager) : VkMultiGpuManager :=
  {| gpuDevices := gpuDevices mgr; vkInstance := vkInstance mgr;
     driverLog := driverLog mgr ++ calls |}.

Section Registry.
Context `{Vulkan}.

(** [flags & BIT], read as a condition *)
Definition has_flag (flags bit : Z) : bool := negb (Z.land flags bit =? 0).

(** One pass of the selection loop over the families from index [i] on;
    the three indices are the fields of [gpuInfo] being written. *)
Fixpoint select_loop (i : Z) (queueFamilies : list VkQueueFamilyProperties)
    (gi ci ti : Z) : Z * Z * Z :=
  match queueFamilies with
  | [] => (gi, ci, ti)
  | qf :: rest =>
      let gi := if has_flag (queueFlags qf) VK_QUEUE_GRAPHICS_BIT then i else gi in
      let ci := if has_flag (queueFlags qf) VK_QUEUE_COMPUTE_BIT && (ci =? UINT32_MAX)
                then i else ci in
      let ti := if has_flag (queueFlags qf) VK_QUEUE_TRANSFER_BIT && (ti =? UINT32_MAX)
                then i else ti in
      select_loop (wrap32 (i + 1)) rest gi ci ti
  end.

Definition SelectQueueFamilyIndices (device : Z) (gpuInfo : VkGpuDevice)
    : bool * VkGpuDevice :=
  let queueFamilies := vkGetPhysicalDeviceQueueFamilyProperties device in
  let '(gi, ci, ti) := select_loop 0 queueFamilies UINT32_MAX UINT32_MAX UINT32_MAX in
  (negb (gi =? UINT32_MAX), set_families gi ci ti gpuInfo).

Definition queue_create_infos (gpuInfo : VkGpuDevice) : list VkDeviceQueueCreateInfo :=
  (if negb (graphicsQueueFamilyIndex gpuInfo =? UINT32_MAX)
   then [ {| queueFamilyIndex := graphicsQueueFamilyIndex gpuInfo; queueCount := 1 |} ]
   else [])
  ++
  (if negb (computeQueueFamilyIndex gpuInfo =? UINT32_MAX)
      && negb (computeQueueFamilyIndex gpuInfo =? graphicsQueueFamilyIndex gpuInfo)
   then [ {| queueFamilyIndex := computeQueueFamilyIndex gpuInfo; queueCount := 1 |} ]
   else []).

(** Result, the record as left behind, and the driver calls issued. *)
Definition CreateLogicalDevice (physDev : Z) (gpuInfo : VkGpuDevice)
    : bool * VkGpuDevice * list DriverCall :=
  let infos := queue_create_infos gpuInfo in
  match vkCreateDevice physDev infos with
  | None => (false, gpuInfo, [])
  | Some dev =>
      let gq := vkGetDeviceQueue dev (graphicsQueueFamilyIndex gpuInfo) 0 in
      let cq := if negb (computeQueueFamilyIndex gpuInfo =? UINT32_MAX)
                then vkGetDeviceQueue dev (computeQueueFamilyIndex gpuInfo) 0
                else computeQueue gpuInfo in
      let tq := if negb (transferQueueFamilyIndex gpuInfo =? UINT32_MAX)
                then vkGetDeviceQueue dev (transferQueueFamilyIndex gpuInfo) 0
                else transferQueue gpuInfo in
      let flags := VK_COMMAND_POOL_CREATE_RESET_COMMAND_BUFFER_BIT in
      let family := graphicsQueueFamilyIndex gpuInfo in
      match vkCreateCommandPool dev family flags with
      | None =>
          (false, set_device dev gq cq tq (commandPool gpuInfo) gpuInfo,
           [CallCreateDevice physDev infos; CallDestroyDevice dev])
      | Some pool =>
          (true, set_device dev gq cq tq pool gpuInfo,
           [CallCreateDevice physDev infos; CallCreateCommandPool dev family flags])
      end
  end.

(** The body of the bring-up loop for candidate [i]: [Some gpuInfo] when
    the candidate is pushed, [None] when it is skipped. *)
Definition bring_up (i : Z) (device : Z) : option VkGpuDevice * list DriverCall :=
  let gpuInfo := set_identity i device (vkGetPhysicalDeviceName device) VkGpuDevice_zero in
  match SelectQueueFamilyIndices device gpuInfo with
  | (false, _) => (None, [])
  | (true, gpuInfo) =>
      match CreateLogicalDevice device gpuInfo with
      | (false, _, calls) => (None, calls)
      | (true, gpuInfo, calls) => (Some gpuInfo, calls)
      end
  end.

(** [for (i = ...; i < gpusToUse; i++)] over [devices[i]], the candidates
    still to visit being [candidates]. *)
Fixpoint init_loop (i : Z) (candidates : list Z) (mgr : VkMultiGpuManager)
    : VkMultiGpuManager :=
  match candidates with
  | [] => mgr
  | device :: rest =>
      let '(pushed, calls) := bring_up i device in
      let mgr := {| gpuDevices := gpuDevices mgr ++ option_list pushed;
                    vkInstance := vkInstance mgr;
                    driverLog := driverLog mgr ++ calls |} in
      init_loop (wrap32 (i + 1)) rest mgr
  end.

Definition InitializeMultiGpu (mgr : VkMultiGpuManager) (instance desiredGpuCount : Z)
    : bool * VkMultiGpuManager :=
  let mgr := {| gpuDevices := gpuDevices mgr; vkInstance := instance;
                driverLog := driverLog mgr |} in
  let devices := vkEnumeratePhysicalDevices instance in
  let physicalDeviceCount := wrap32 (Z.of_nat (length devices)) in
  if physicalDeviceCount =? 0 then (false, mgr)
  else
    let gpusToUse := std_min physicalDeviceCount desiredGpuCount in
    let mgr := init_loop 0 (take (Z.to_nat gpusToUse) devices) mgr in
    (negb (bool_decide (gpuDevices mgr = [])), mgr).

Definition AllocateMemory (mgr : VkMultiGpuManager) (gpuIndex : Z)
    (allocInfo : VkMemoryAllocateInfo) : Z * VkMultiGpuManager :=
  if Z.of_nat (length (gpuDevices mgr)) <=? gpuIndex then (VK_NULL_HANDLE, mgr)
  else match gpuDevices mgr !! Z.to_nat gpuIndex with
       | Some gpu =>
           (vkAllocateMemory (logicalDevice gpu) allocInfo,
            log_calls [CallAllocateMemory (logicalDevice gpu) allocInfo] mgr)
       | None => (VK_NULL_HANDLE, mgr)
       end.

Definition FreeMemory (mgr : VkMultiGpuManager) (gpuIndex memory : Z)
    : VkMultiGpuManager :=
  if (gpuIndex <? Z.of_nat (length (gpuDevices mgr))) && negb (memory =? VK_NULL_HANDLE)
  then match gpuDevices mgr !! Z.to_nat gpuIndex with
       | Some gpu => log_calls [CallFreeMemory (logicalDevice gpu) memory] mgr
       | None => mgr
       end
  else mgr.

End Registry.

(** *** Specification of the selection

    [first_with bit claimed fams idx]: [idx] is the position of the first
    family of [fams] that carries [bit] and whose position is not in
    [claimed], or the sentinel when there is none.  [last_with] is the same
    for the last family carrying [bit]. *)

Definition first_with (bit : Z) (claimed : list Z)
    (fams : list VkQueueFamilyProperties) (idx : Z) : Prop :=
  (idx = UINT32_MAX /\
   forall (k : nat) qf, fams !! k = Some qf ->
     ~ (has_flag (queueFlags qf) bit = true /\ Z.of_nat k ∉ claimed))
  \/
  (exists (k : nat) qf,
     idx = Z.of_nat k /\ fams !! k = Some qf /\
     (has_flag (queueFlags qf) bit = true /\ Z.of_nat k ∉ claimed) /\
     forall (k' : nat) qf', (k' < k)%nat -> fams !! k' = Some qf' ->
       ~ (has_flag (queueFlags qf') bit = true /\ Z.of_nat k' ∉ claimed)).

Definition last_with (bit : Z) (fams : list VkQueueFamilyProperties) (idx : Z) : Prop :=
  (idx = UINT32_MAX /\
   forall (k : nat) qf, fams !! k = Some qf -> has_flag (queueFlags qf) bit = false)
  \/
  (exists (k : nat) qf,
     idx = Z.of_nat k /\ fams !! k = Some qf /\ has_flag (queueFlags qf) bit = true /\
     forall (k' : nat) qf', (k < k')%nat -> fams !! k' = Some qf' ->
       has_flag (queueFlags qf') bit = false).

(** ** FrameDistributor ([VkFrameDistributor]) *)

Inductive FrameDistributionMode :=
| SPLIT_FRAME_HORIZONTAL
| SPLIT_FRAME_VERTICAL
| SPLIT_FRAME_QUADRANTS
| AFR_ALTERNATING
| SFR_OPTIMIZED.

Record FrameRegion := {
  offsetX : Z;
  offsetY : Z;
  width : Z;
  height : Z;
  gpuIndex : Z
}.

(** [FrameRegion{}] *)
Definition FrameRegion_zero : FrameRegion :=
  {| offsetX := 0; offsetY := 0; width := 0; height := 0; gpuIndex := 0 |}.

(** The distributor's own fields; the registry it points to is passed to
    each member function. *)
Record VkFrameDistributor := {
  distributionMode : FrameDistributionMode;
  frameWidth : Z;
  frameHeight : Z;
  cachedRegions : list FrameRegion
}.

Definition VkFrameDistributor_new : VkFrameDistributor :=
  {| distributionMode := SPLIT_FRAME_HORIZONTAL;
     frameWidth := 0; frameHeight := 0; cachedRegions := [] |}.

Definition SetDistributionMode (d : VkFrameDistributor) (mode : FrameDistributionMode)
    : VkFrameDistributor :=
  {| distributionMode := mode; frameWidth := frameWidth d;
     frameHeight := frameHeight d; cachedRegions := [] |}.

Definition SetFrameResolution (d : VkFrameDistributor) (w h : Z) : VkFrameDistributor :=
  {| distributionMode := distributionMode d; frameWidth := w;
     frameHeight := h; cachedRegions := [] |}.

(** What a call does: it returns a value, or it evaluates an unsigned
    division whose divisor is zero, which C++ leaves undefined. *)
Inductive outcome (A : Type) :=
| Returns (a : A)
| DivisionByZero.
Arguments Returns {A} a.
Arguments DivisionByZero {A}.

Definition horizontal_region (d : VkFrameDistributor) (gpuCount regionWidth i : Z)
    : FrameRegion :=
  let offX := wrap32 (i * regionWidth) in
  {| offsetX := offX;
     offsetY := 0;
     width := if i =? wrap32 (gpuCount - 1) then wrap32 (frameWidth d - offX)
              else regionWidth;
     height := frameHeight d;
     gpuIndex := i |}.

Definition ComputeHorizontalSplit (mgr : VkMultiGpuManager) (d : VkFrameDistributor)
    : outcome (list FrameRegion) :=
  let gpuCount := GetActiveGpuCount mgr in
  if gpuCount =? 0 then DivisionByZero
  else
    let regionWidth := frameWidth d / gpuCount in
    Returns (horizontal_region d gpuCount regionWidth <$> seqZ 0 gpuCount).

Definition vertical_region (d : VkFrameDistributor) (gpuCount regionHeight i : Z)
    : FrameRegion :=
  let offY := wrap32 (i * regionHeight) in
  {| offsetX := 0;
     offsetY := offY;
     width := frameWidth d;
     height := if i =? wrap32 (gpuCount - 1) then wrap32 (frameHeight d - offY)
               else regionHeight;
     gpuIndex := i |}.

Definition ComputeVerticalSplit (mgr : VkMultiGpuManager) (d : VkFrameDistributor)
    : outcome (list FrameRegion) :=
  let gpuCount := GetActiveGpuCount mgr in
  if gpuCount =? 0 then DivisionByZero
  else
    let regionHeight := frameHeight d / gpuCount in
    Returns (vertical_region d gpuCount regionHeight <$> seqZ 0 gpuCount).

(** The body of the quadrant loop: [quad] is declared outside the loop and
    rewritten in place at every iteration. *)
Definition quadrant_step (d : VkFrameDistributor) (halfWidth halfHeight : Z)
    (quad : FrameRegion) (i : Z) : FrameRegion :=
  if i =? 0 then
    {| gpuIndex := i; offsetX := 0; offsetY := 0;
       width := halfWidth; height := halfHeight |}
  else if i =? 1 then
    {| gpuIndex := i; offsetX := halfWidth; offsetY := 0;
       width := wrap32 (frameWidth d - halfWidth); height := halfHeight |}
  else if i =? 2 then
    {| gpuIndex := i; offsetX := 0; offsetY := halfHeight;
       width := halfWidth; height := wrap32 (frameHeight d - halfHeight) |}
  else
    {| gpuIndex := i; offsetX := halfWidth; offsetY := halfHeight;
       width := wrap32 (frameWidth d - halfWidth);
       height := wrap32 (frameHeight d - halfHeight) |}.

Definition ComputeQuadrantSplit (mgr : VkMultiGpuManager) (d : VkFrameDistributor)
    : outcome (list FrameRegion) :=
  let gpuCount := std_min 4 (GetActiveGpuCount mgr) in
  let halfWidth := frameWidth d / 2 in
  let halfHeight := frameHeight d / 2 in
  Returns
    (snd (foldl (fun '(quad, regions) i =>
                   let quad := quadrant_step d halfWidth halfHeight quad i in
                   (quad, regions ++ [quad]))
                (FrameRegion_zero, []) (seqZ 0 gpuCount))).

Definition ComputeFrameRegions (mgr : VkMultiGpuManager) (d : VkFrameDistributor)
    : outcome (list FrameRegion) :=
  match distributionMode d with
  | SPLIT_FRAME_HORIZONTAL => ComputeHorizontalSplit mgr d
  | SPLIT_FRAME_VERTICAL => ComputeVerticalSplit mgr d
  | SPLIT_FRAME_QUADRANTS => ComputeQuadrantSplit mgr d
  | _ => ComputeHorizontalSplit mgr d
  end.

Definition GetRegionForGpu (mgr : VkMultiGpuManager) (d : VkFrameDistributor) (idx : Z)
    : outcome FrameRegion :=
  match ComputeFrameRegions mgr d with
  | DivisionByZero => DivisionByZero
  | Returns regions =>
      Returns (default FrameRegion_zero
                 (List.find (fun region => gpuIndex region =? idx) regions))
  end.

(** The offset and the length that the horizontal and the vertical loop
    write for device [k], along an axis of [extent] pixels cut for [n]
    devices. *)
Definition strip_lo (extent n k : Z) : Z := wrap32 (k * (extent / n)).

Definition strip_len (extent n k : Z) : Z :=
  if k =? wrap32 (n - 1) then wrap32 (extent - strip_lo extent n k) else extent / n.

(** Pixel [(x, y)] lies in region [r]. *)
Definition covers (r : FrameRegion) (x y : Z) : Prop :=
  (offsetX r <= x < offsetX r + width r) /\ (offsetY r <= y < offsetY r + height r).

Global Instance covers_dec r x y : Decision (covers r x y).
Proof. unfold covers. apply _. Defined.




(** ** CrossDeviceSynchronizer ([VkMultiGpuSynchronizer]) *)

Record VkMultiGpuSynchronizer := {
  timelineSemaphores : list (list Z);
  currentFrameIds : list Z
}.

(** The constructor sizes both vectors by the registry's active count. *)
Definition VkMultiGpuSynchronizer_new (mgr : VkMultiGpuManager) : VkMultiGpuSynchronizer :=
  let gpuCount := GetActiveGpuCount mgr in
  {| timelineSemaphores := replicate (Z.to_nat gpuCount) [];
     currentFrameIds := replicate (Z.to_nat gpuCount) 0 |}.

Definition CreateTimelineSemaphore (s : VkMultiGpuSynchronizer) (gpuIdx initialValue : Z)
    : Z * VkMultiGpuSynchronizer :=
  if Z.of_nat (length (timelineSemaphores s)) <=? gpuIdx then (VK_NULL_HANDLE, s)
  else
    let sem := VK_NULL_HANDLE in
    (sem, {| timelineSemaphores :=
               alter (fun sems => sems ++ [sem]) (Z.to_nat gpuIdx) (timelineSemaphores s);
             currentFrameIds := currentFrameIds s |}).

Definition DestroySemaphore (s : VkMultiGpuSynchronizer) (gpuIdx semaphore : Z)
    : VkMultiGpuSynchronizer := s.

Definition SignalFrameComplete (s : VkMultiGpuSynchronizer) (gpuIdx frameId : Z)
    : VkMultiGpuSynchronizer :=
  if gpuIdx <? Z.of_nat (length (currentFrameIds s))
  then {| timelineSemaphores := timelineSemaphores s;
          currentFrameIds := <[Z.to_nat gpuIdx := frameId]> (currentFrameIds s) |}
  else s.

(** The body is empty: the call returns at once with the object as it was. *)
Definition WaitForFrameComplete (s : VkMultiGpuSynchronizer) (gpuIdx frameId : Z)
    : VkMultiGpuSynchronizer := s.

Definition InsertInterGpuBarrier (s : VkMultiGpuSynchronizer)
    (srcGpu dstGpu srcStage dstStage : Z) : VkMultiGpuSynchronizer := s.

Definition CreateCrossGpuEvent (s : VkMultiGpuSynchronizer) (gpuIdx : Z)
    : Z * VkMultiGpuSynchronizer := (VK_NULL_HANDLE, s).

Definition SignalEvent (s : VkMultiGpuSynchronizer) (gpuIdx event : Z)
    : VkMultiGpuSynchronizer := s.

Definition WaitForEvent (s : VkMultiGpuSynchronizer) (gpuIdx event : Z)
    : VkMultiGpuSynchronizer := s.

(** The completion counter of device [gpuIdx], when it has one. *)
Definition counter (s : VkMultiGpuSynchronizer) (gpuIdx : Z) : option Z :=
  if (0 <=? gpuIdx) then currentFrameIds s !! Z.to_nat gpuIdx else None.

(** The public calls of the synchronizer, as data. *)
Inductive SyncOp :=
| OpCreateTimelineSemaphore (gpuIdx initialValue : Z)
| OpDestroySemaphore (gpuIdx semaphore : Z)
| OpSignalFrameComplete (gpuIdx frameId : Z)
| OpWaitForFrameComplete (gpuIdx frameId : Z)
| OpInsertInterGpuBarrier (srcGpu dstGpu srcStage dstStage : Z)
| OpCreateCrossGpuEvent (gpuIdx : Z)
| OpSignalEvent (gpuIdx event : Z)
| OpWaitForEvent (gpuIdx event : Z).

Definition sync_step (s : VkMultiGpuSynchronizer) (op : SyncOp) : VkMultiGpuSynchronizer :=
  match op with
  | OpCreateTimelineSemaphore g v => snd (CreateTimelineSemaphore s g v)
  | OpDestroySemaphore g sem => DestroySemaphore s g sem
  | OpSignalFrameComplete g id => SignalFrameComplete s g id
  | OpWaitForFrameComplete g id => WaitForFrameComplete s g id
  | OpInsertInterGpuBarrier a b c e => InsertInterGpuBarrier s a b c e
  | OpCreateCrossGpuEvent g => snd (CreateCrossGpuEvent s g)
  | OpSignalEvent g e => SignalEvent s g e
  | OpWaitForEvent g e => WaitForEvent s g e
  end.

(** The value a call hands back, for the calls that have one. *)
Definition sync_result (s : VkMultiGpuSynchronizer) (op : SyncOp) : option Z :=
  match op with
  | OpCreateTimelineSemaphore g v => Some (fst (CreateTimelineSemaphore s g v))
  | OpCreateCrossGpuEvent g => Some (fst (CreateCrossGpuEvent s g))
  | _ => None
  end.

(** The device index a call is addressed to ([InsertInterGpuBarrier] has
    two). *)
Definition sync_targets (op : SyncOp) : list Z :=
  match op with
  | OpCreateTimelineSemaphore g _ | OpDestroySemaphore g _
  | OpSignalFrameComplete g _ | OpWaitForFrameComplete g _
  | OpCreateCrossGpuEvent g | OpSignalEvent g _ | OpWaitForEvent g _ => [g]
  | OpInsertInterGpuBarrier a b _ _ => [a; b]
  end.

Definition sync_run (s : VkMultiGpuSynchronizer) (ops : list SyncOp)
    : VkMultiGpuSynchronizer := foldl sync_step s ops.

(** The states the synchronizer passes through while running [ops],
    starting state first. *)
Fixpoint sync_trace (s : VkMultiGpuSynchronizer) (ops : list SyncOp)
    : list VkMultiGpuSynchronizer :=
  match ops with
  | [] => [s]
  | op :: rest => s :: sync_trace (sync_step s op) rest
  end.

(** Every [SignalFrameComplete] in [ops] carries an id that is at least the
    addressed device's counter at the time of the call. *)
Fixpoint signals_ascend (s : VkMultiGpuSynchronizer) (ops : list SyncOp) : Prop :=
  match ops with
  | [] => True
  | op :: rest =>
      match op with
      | OpSignalFrameComplete g id =>
          match counter s g with Some c => c <= id | None => True end
      | _ => True
      end /\ signals_ascend (sync_step s op) rest
  end.

(** Device indices are [uint32_t] arguments. *)
Definition indices_u32 (ops : list SyncOp) : Prop :=
  Forall (fun op => Forall is_u32 (sync_targets op)) ops.

(** The synchronizer was constructed on the registry [mgr], when its active
    count was what it is now or, before a later bring-up, smaller: neither
    vector is longer than the active count. *)
Definition sized_for (mgr : VkMultiGpuManager) (s : VkMultiGpuSynchronizer) : Prop :=
  (length (timelineSemaphores s) <= Z.to_nat (GetActiveGpuCount mgr))%nat /\
  (length (currentFrameIds s) <= Z.to_nat (GetActiveGpuCount mgr))%nat.

(** ** MemoryPlacementManager ([VkMultiGpuMemoryManager]) *)

Inductive MemoryPlacementStrategy := REPLICATED | DISTRIBUTED | PINNED_HOST | GPU_LOCAL.

(** Received by [AllocateImage], which reads none of its fields. *)
Record VkImageCreateInfo := {
  imageExtentWidth : Z;
  imageExtentHeight : Z
}.

Record VkMultiGpuMemoryManager := {
  bufferStrategies : gmap Z MemoryPlacementStrategy;
  imageStrategies : gmap Z MemoryPlacementStrategy
}.

Definition VkMultiGpuMemoryManager_new : VkMultiGpuMemoryManager :=
  {| bufferStrategies := ∅; imageStrategies := ∅ |}.

Definition AllocateBuffer (m : VkMultiGpuMemoryManager) (usage size : Z)
    (strategy : MemoryPlacementStrategy) (targetGpus : list Z)
    : Z * VkMultiGpuMemoryManager :=
  let buffer := VK_NULL_HANDLE in
  (buffer, {| bufferStrategies := <[buffer := strategy]> (bufferStrategies m);
              imageStrategies := imageStrategies m |}).

Definition AllocateImage (m : VkMultiGpuMemoryManager) (imageInfo : VkImageCreateInfo)
    (strategy : MemoryPlacementStrategy) (targetGpus : list Z)
    : Z * VkMultiGpuMemoryManager :=
  let image := VK_NULL_HANDLE in
  (image, {| bufferStrategies := bufferStrategies m;
             imageStrategies := <[image := strategy]> (imageStrategies m) |}).

Definition FreeBuffer (m : VkMultiGpuMemoryManager) (buffer : Z) : VkMultiGpuMemoryManager :=
  {| bufferStrategies := delete buffer (bufferStrategies m);
     imageStrategies := imageStrategies m |}.

Definition FreeImage (m : VkMultiGpuMemoryManager) (image : Z) : VkMultiGpuMemoryManager :=
  {| bufferStrategies := bufferStrategies m;
     imageStrategies := delete image (imageStrategies m) |}.

Definition CopyBufferBetweenGpus (m : VkMultiGpuMemoryManager)
    (srcGpu dstGpu src dst size : Z) : VkMultiGpuMemoryManager := m.

Definition ReplicateBufferToAllGpus (m : VkMultiGpuMemoryManager) (buffer size : Z)
    : VkMultiGpuMemoryManager := m.

(** [nullptr] is [None]. *)
Definition MapMemory (m : VkMultiGpuMemoryManager) (buffer size : Z)
    : option Z * VkMultiGpuMemoryManager := (None, m).

Definition UnmapMemory (m : VkMultiGpuMemoryManager) (buffer : Z)
    : VkMultiGpuMemoryManager := m.

(** The public calls of the memory manager, as data. *)
Inductive MemOp :=
| OpAllocateBuffer (usage size : Z) (strategy : MemoryPlacementStrategy) (targetGpus : list Z)
| OpAllocateImage (info : VkImageCreateInfo) (strategy : MemoryPlacementStrategy)
    (targetGpus : list Z)
| OpFreeBuffer (buffer : Z)
| OpFreeImage (image : Z)
| OpCopyBufferBetweenGpus (srcGpu dstGpu src dst size : Z)
| OpReplicateBufferToAllGpus (buffer size : Z)
| OpMapMemory (buffer size : Z)
| OpUnmapMemory (buffer : Z).

Definition mem_step (m : VkMultiGpuMemoryManager) (op : MemOp) : VkMultiGpuMemoryManager :=
  match op with
  | OpAllocateBuffer u sz st t => snd (AllocateBuffer m u sz st t)
  | OpAllocateImage i st t => snd (AllocateImage m i st t)
  | OpFreeBuffer b => FreeBuffer m b
  | OpFreeImage i => FreeImage m i
  | OpCopyBufferBetweenGpus a b c e f => CopyBufferBetweenGpus m a b c e f
  | OpReplicateBufferToAllGpus b sz => ReplicateBufferToAllGpus m b sz
  | OpMapMemory b sz => snd (MapMemory m b sz)
  | OpUnmapMemory b => UnmapMemory m b
  end.

Definition mem_run (m : VkMultiGpuMemoryManager) (ops : list MemOp)
    : VkMultiGpuMemoryManager := foldl mem_step m ops.

(** Only the null handle is ever a key of the two placement maps. *)
Definition only_null_keys (m : VkMultiGpuMemoryManager) : Prop :=
  (forall h, h <> VK_NULL_HANDLE -> bufferStrategies m !! h = None) /\
  (forall h, h <> VK_NULL_HANDLE -> imageStrategies m !! h = None).

(** ** A small driver to run the code on

    Three header constants with the values of [vulkan.h], and a driver
    whose physical devices are [devs], whose queue families are given by
    [families], and on which every creation succeeds. *)

Definition sample_vulkan (devs : list Z) (families : Z -> list VkQueueFamilyProperties)
    : Vulkan :=
  {| VK_QUEUE_GRAPHICS_BIT := 1;
     VK_QUEUE_COMPUTE_BIT := 2;
     VK_QUEUE_TRANSFER_BIT := 4;
     VK_COMMAND_POOL_CREATE_RESET_COMMAND_BUFFER_BIT := 2;
     vkEnumeratePhysicalDevices := fun _ => devs;
     vkGetPhysicalDeviceName := fun _ => "gpu";
     vkGetPhysicalDeviceQueueFamilyProperties := families;
     vkCreateDevice := fun pd _ => Some (100 + pd);
     vkGetDeviceQueue := fun dev family _ => 1000 + 10 * dev + family;
     vkCreateCommandPool := fun dev _ _ => Some (200 + dev);
     vkAllocateMemory := fun dev _ => 300 + dev |}.

(** One family that can do everything. *)
Definition universal_family : list VkQueueFamilyProperties := [ {| queueFlags := 7 |} ].

(** A registry brought up on [n] such devices. *)
Definition registry_of (n : nat) : VkMultiGpuManager :=
  snd (@InitializeMultiGpu
         (sample_vulkan (Z.of_nat <$> seq 1 n) (fun _ => universal_family))
         VkMultiGpuManager_new 1 (Z.of_nat n)).

Definition distributor_of (mode : FrameDistributionMode) (w h : Z) : VkFrameDistributor :=
  SetFrameResolution (SetDistributionMode VkFrameDistributor_new mode) w h.

(** ** Observations on the registry, the synchronizer and the memory
    manager, used to state what the calls do *)

Section RegistryObservers.
Context `{Vulkan}.

(** The records that the bring-up loop pushes for the candidates from
    index [i] on, in the order it pushes them. *)
Fixpoint brought_up (i : Z) (candidates : list Z) : list VkGpuDevice :=
  match candidates with
  | [] => []
  | device :: rest =>
      option_list (fst (bring_up i device)) ++ brought_up (wrap32 (i + 1)) rest
  end.

(** What [InitializeMultiGpu] has established about a record it pushed: the
    three family indices are what the selection finds on the record's
    physical device, graphics is resolved, and the logical device, the
    graphics queue and the command pool are the driver's answers for
    them. *)
Definition gpu_admitted (gpu : VkGpuDevice) : Prop :=
  graphicsQueueFamilyIndex gpu <> UINT32_MAX /\
  last_with VK_QUEUE_GRAPHICS_BIT
    (vkGetPhysicalDeviceQueueFamilyProperties (physicalDevice gpu))
    (graphicsQueueFamilyIndex gpu) /\
  first_with VK_QUEUE_COMPUTE_BIT []
    (vkGetPhysicalDeviceQueueFamilyProperties (physicalDevice gpu))
    (computeQueueFamilyIndex gpu) /\
  first_with VK_QUEUE_TRANSFER_BIT []
    (vkGetPhysicalDeviceQueueFamilyProperties (physicalDevice gpu))
    (transferQueueFamilyIndex gpu) /\
  vkCreateDevice (physicalDevice gpu) (queue_create_infos gpu)
    = Some (logicalDevice gpu) /\
  graphicsQueue gpu
    = vkGetDeviceQueue (logicalDevice gpu) (graphicsQueueFamilyIndex gpu) 0 /\
  vkCreateCommandPool (logicalDevice gpu) (graphicsQueueFamilyIndex gpu)
    VK_COMMAND_POOL_CREATE_RESET_COMMAND_BUFFER_BIT
    = Some (commandPool gpu) /\
  deviceName gpu = vkGetPhysicalDeviceName (physicalDevice gpu).

(** Every queue-family list the driver reports has a [uint32_t] count. *)
Definition family_counts_u32 : Prop :=
  forall device,
    Z.of_nat (length (vkGetPhysicalDeviceQueueFamilyProperties device)) <= UINT32_MAX.

End RegistryObservers.





(** The destructor of the synchronizer walks every device's list and calls
    [DestroySemaphore(i, sem)] for the handles that are not null; these are
    the calls it makes, in order. *)
Definition VkMultiGpuSynchronizer_destroy_calls (s : VkMultiGpuSynchronizer)
    : list (Z * Z) :=
  mjoin (imap (fun (i : nat) sems =>
                 (fun sem => (Z.of_nat i, sem))
                   <$> List.filter (fun sem => negb (sem =? VK_NULL_HANDLE)) sems)
              (timelineSemaphores s)).

(** The number of [CreateTimelineSemaphore] calls in [ops] addressed to
    device [g]. *)
Definition creates_for (g : Z) (ops : list SyncOp) : nat :=
  length (List.filter (fun op => match op with
                                 | OpCreateTimelineSemaphore g' _ => g' =? g
                                 | _ => false
                                 end) ops).

(** The frame ids signalled to device [g] in [ops], oldest first. *)
Definition signals_to (g : Z) (ops : list SyncOp) : list Z :=
  omap (fun op => match op with
                  | OpSignalFrameComplete g' id => if g' =? g then Some id else None
                  | _ => None
                  end) ops.

(** The calls that write the buffer map, and those that write the image
    map. *)
Definition touches_buffers (op : MemOp) : bool :=
  match op with OpAllocateBuffer _ _ _ _ | OpFreeBuffer _ => true | _ => false end.

Definition touches_images (op : MemOp) : bool :=
  match op with OpAllocateImage _ _ _ | OpFreeImage _ => true | _ => false end.

(** ** Concurrent callers of the synchronizer

    Several threads each make a sequence of synchronizer calls; a call is
    atomic.  Whether a call returns depends on the state it is made in:
    [Some s'] is a call that returns and leaves [s']; [None] is a call that
    cannot return in that state, so that its thread stays in the call
    while other threads run. *)

Definition call_semantics : Type :=
  VkMultiGpuSynchronizer -> SyncOp -> option VkMultiGpuSynchronizer.

(** The code.  No member function of the synchronizer has a loop, a lock or
    a wait primitive in its body, so every call returns in the state it is
    made in, with the state its body leaves. *)
Definition code_call : call_semantics :=
  fun s op => Some (sync_step s op).

(** Following the spec's words, section 4.3: "[WaitForFrameComplete(device,
    id)] must block the caller until the counter is observed >= [id]".  The
    wait returns, changing nothing, in the states where the counter of the
    device has reached [id], and in no other; an out-of-range device is a
    no-op; every other call is as in the code. *)
Definition spec_call : call_semantics :=
  fun s op =>
    match op with
    | OpWaitForFrameComplete g id =>
        match counter s g with
        | Some c => if id <=? c then Some s else None
        | None => Some s
        end
    | _ => Some (sync_step s op)
    end.

(** One step of the threads: some thread whose next call returns makes
    it. *)
Inductive thread_step (sem : call_semantics)
    : VkMultiGpuSynchronizer * list (list SyncOp) ->
      VkMultiGpuSynchronizer * list (list SyncOp) -> Prop :=
| thread_step_call (t : nat) op ops s s' threads :
    threads !! t = Some (op :: ops) ->
    sem s op = Some s' ->
    thread_step sem (s, threads) (s', <[t := ops]> threads).

(** The synchronizer states that the threads can bring about from [s]. *)
Definition reachable (sem : call_semantics) (s : VkMultiGpuSynchronizer)
    (threads : list (list SyncOp)) (s' : VkMultiGpuSynchronizer) : Prop :=
  exists threads', rtc (thread_step sem) (s, threads) (s', threads').

Definition is_wait (op : SyncOp) : bool :=
  match op with OpWaitForFrameComplete _ _ => true | _ => false end.

(** A thread's calls without its [WaitForFrameComplete] calls. *)
Definition erase_waits (ops : list SyncOp) : list SyncOp :=
  List.filter (fun op => negb (is_wait op)) ops.

(** * Properties *)

(** ** Machine integers *)

Lemma wrap32_small z : 0 <= z < 2 ^ 32 -> wrap32 z = z.
Proof. intros Hz. unfold wrap32. apply Z.mod_small. exact Hz. Qed.

Lemma is_u32_range z : is_u32 z <-> 0 <= z < 2 ^ 32.
Proof. unfold is_u32, UINT32_MAX. lia. Qed.

Lemma GetActiveGpuCount_range mgr : 0 <= GetActiveGpuCount mgr < 2 ^ 32.
Proof. unfold GetActiveGpuCount, wrap32. apply Z.mod_pos_bound. lia. Qed.

Lemma GetActiveGpuCount_length mgr :
  Z.of_nat (length (gpuDevices mgr)) < 2 ^ 32 ->
  GetActiveGpuCount mgr = Z.of_nat (length (gpuDevices mgr)).
Proof. intros Hlen. unfold GetActiveGpuCount. apply wrap32_small. lia. Qed.

(** ** Strips: the one-dimensional split shared by the horizontal and the
    vertical mode *)

Section Strip.
Variables (extent n : Z).
Hypothesis extent_u32 : 0 <= extent < 2 ^ 32.
Hypothesis n_pos : 1 <= n.
Hypothesis n_u32 : n < 2 ^ 32.

Local Abbreviation step := (extent / n).

Lemma step_bounds : 0 <= step /\ n * step <= extent /\ extent < n * step + n.
Proof using extent_u32 n_pos n_u32.
  split; [apply Z.div_pos; lia|].
  pose proof (Z.mul_div_le extent n ltac:(lia)).
  pose proof (Z.mul_succ_div_gt extent n ltac:(lia)). lia.
Qed.

Lemma strip_lo_exact k : 0 <= k < n -> strip_lo extent n k = k * step.
Proof using extent_u32 n_pos n_u32.
  intros Hk. unfold strip_lo. apply wrap32_small.
  pose proof step_bounds. nia.
Qed.

Lemma strip_len_inner k : 0 <= k < n - 1 -> strip_len extent n k = step.
Proof using extent_u32 n_pos n_u32.
  intros Hk. unfold strip_len. rewrite (wrap32_small (n - 1)) by lia.
  destruct (Z.eqb_spec k (n - 1)); [lia|reflexivity].
Qed.

Lemma strip_len_last : strip_len extent n (n - 1) = extent - (n - 1) * step.
Proof using extent_u32 n_pos n_u32.
  unfold strip_len. rewrite (wrap32_small (n - 1)) by lia.
  rewrite Z.eqb_refl, strip_lo_exact by lia.
  apply wrap32_small. pose proof step_bounds. nia.
Qed.

Lemma strip_end k :
  0 <= k < n ->
  strip_lo extent n k + strip_len extent n k = if k =? n - 1 then extent else (k + 1) * step.
Proof using extent_u32 n_pos n_u32.
  intros Hk. rewrite strip_lo_exact by lia.
  destruct (Z.eqb_spec k (n - 1)) as [->|Hne].
  - rewrite strip_len_last. lia.
  - rewrite strip_len_inner by lia. lia.
Qed.

Lemma strip_no_gap x :
  0 <= x < extent -> exists k, 0 <= k < n /\ strip_lo extent n k <= x < strip_lo extent n k + strip_len extent n k.
Proof using extent_u32 n_pos n_u32.
  intros Hx. pose proof step_bounds as Hs.
  destruct (Z_lt_le_dec x ((n - 1) * step)) as [Hlt|Hge].
  - assert (0 < step) by nia.
    exists (x / step).
    assert (0 <= x / step < n - 1) as Hk.
    { split; [apply Z.div_pos; lia|]. apply Z.div_lt_upper_bound; lia. }
    split; [lia|]. rewrite strip_end, strip_lo_exact by lia.
    destruct (Z.eqb_spec (x / step) (n - 1)); [lia|].
    pose proof (Z.mul_div_le x step ltac:(lia)).
    pose proof (Z.mul_succ_div_gt x step ltac:(lia)). lia.
  - exists (n - 1). split; [lia|].
    rewrite strip_end, strip_lo_exact by lia. rewrite Z.eqb_refl. lia.
Qed.


Lemma strip_inside k x :
  0 <= k < n -> strip_lo extent n k <= x < strip_lo extent n k + strip_len extent n k -> 0 <= x < extent.
Proof using extent_u32 n_pos n_u32.
  intros Hk. rewrite strip_end, strip_lo_exact by lia.
  pose proof step_bounds as Hs.
  destruct (Z.eqb_spec k (n - 1)); nia.
Qed.

End Strip.

(** ** Lists produced by a counted loop *)

Lemma lookup_fmap_seqZ {A} (f : Z -> A) (n : Z) (i : nat) (r : A) :
  (f <$> seqZ 0 n) !! i = Some r <-> r = f (Z.of_nat i) /\ Z.of_nat i < n.
Proof.
  rewrite list_lookup_fmap. split.
  - intros Hr. destruct (seqZ 0 n !! i) as [k|] eqn:Hk; [|discriminate].
    apply lookup_seqZ in Hk as [-> Hlt]. simpl in Hr. injection Hr as <-. split; [f_equal; lia|lia].
  - intros [-> Hlt]. rewrite lookup_seqZ_lt by lia. reflexivity.
Qed.

Lemma elem_of_fmap_seqZ {A} (f : Z -> A) (n : Z) (r : A) :
  r ∈ f <$> seqZ 0 n <-> exists k, 0 <= k < n /\ r = f k.
Proof.
  rewrite list_elem_of_fmap. split.
  - intros (k & -> & Hk). apply elem_of_seqZ in Hk. exists k. split; [lia|reflexivity].
  - intros (k & Hk & ->). exists k. split; [reflexivity|]. apply elem_of_seqZ. lia.
Qed.

(** ** Horizontal and vertical split *)



Lemma ComputeHorizontalSplit_returns mgr d :
  1 <= GetActiveGpuCount mgr ->
  ComputeHorizontalSplit mgr d =
  Returns (horizontal_region d (GetActiveGpuCount mgr)
             (frameWidth d / GetActiveGpuCount mgr) <$> seqZ 0 (GetActiveGpuCount mgr)).
Proof.
  intros Hn. unfold ComputeHorizontalSplit.
  destruct (Z.eqb_spec (GetActiveGpuCount mgr) 0); [lia|reflexivity].
Qed.

Lemma ComputeVerticalSplit_returns mgr d :
  1 <= GetActiveGpuCount mgr ->
  ComputeVerticalSplit mgr d =
  Returns (vertical_region d (GetActiveGpuCount mgr)
             (frameHeight d / GetActiveGpuCount mgr) <$> seqZ 0 (GetActiveGpuCount mgr)).
Proof.
  intros Hn. unfold ComputeVerticalSplit.
  destruct (Z.eqb_spec (GetActiveGpuCount mgr) 0); [lia|reflexivity].
Qed.



(** ** Quadrant split *)

(** The four quadrants in the order the loop writes them. *)
Lemma quadrant_regions d (n : Z) :
  0 <= n <= 4 ->
  snd (foldl (fun '(quad, regions) i =>
                let quad := quadrant_step d (frameWidth d / 2) (frameHeight d / 2) quad i in
                (quad, regions ++ [quad]))
             (FrameRegion_zero, []) (seqZ 0 n))
  = take (Z.to_nat n)
      (quadrant_step d (frameWidth d / 2) (frameHeight d / 2) FrameRegion_zero
         <$> [0; 1; 2; 3]).
Proof.
  intros Hn.
  assert (n = 0 \/ n = 1 \/ n = 2 \/ n = 3 \/ n = 4) as Hcases by lia.
  destruct Hcases as [->|[->|[->|[->| ->]]]]; reflexivity.
Qed.

Lemma ComputeQuadrantSplit_returns mgr d :
  ComputeQuadrantSplit mgr d =
  Returns (take (Z.to_nat (std_min 4 (GetActiveGpuCount mgr)))
             (quadrant_step d (frameWidth d / 2) (frameHeight d / 2) FrameRegion_zero
                <$> [0; 1; 2; 3])).
Proof.
  unfold ComputeQuadrantSplit. f_equal. apply quadrant_regions.
  pose proof (GetActiveGpuCount_range mgr). unfold std_min.
  destruct (Z.ltb_spec (GetActiveGpuCount mgr) 4); lia.
Qed.

Lemma half_bounds z : is_u32 z -> 0 <= z / 2 <= z /\ wrap32 (z - z / 2) = z - z / 2.
Proof.
  intros Hz%is_u32_range.
  assert (0 <= z / 2 <= z) as Hhalf.
  { split; [apply Z.div_pos; lia|]. apply Z.div_le_upper_bound; lia. }
  split; [exact Hhalf|]. apply wrap32_small. lia.
Qed.



(** ** The frame distributor's claims *)





(** C3 (the code does not do this): on a registry with no active device the
    horizontal and the vertical split evaluate a division by zero, whatever
    the frame size; nothing guards it.  The quadrant split, which does not
    divide by the count, returns no region. *)
Theorem zero_devices_divide_by_zero (d : VkFrameDistributor) :
  GetActiveGpuCount VkMultiGpuManager_new = 0 /\
  ComputeHorizontalSplit VkMultiGpuManager_new d = DivisionByZero /\
  ComputeVerticalSplit VkMultiGpuManager_new d = DivisionByZero /\
  ComputeQuadrantSplit VkMultiGpuManager_new d = Returns [] /\
  (distributionMode d <> SPLIT_FRAME_QUADRANTS ->
   ComputeFrameRegions VkMultiGpuManager_new d = DivisionByZero).
Proof.
  repeat split; try reflexivity.
  intros Hne. unfold ComputeFrameRegions. destruct (distributionMode d); try reflexivity.
  congruence.
Qed.

Lemma zero_devices_divide_by_zero_witness :
  distributionMode (distributor_of SPLIT_FRAME_VERTICAL 1920 1080)
    <> SPLIT_FRAME_QUADRANTS /\
  ComputeFrameRegions VkMultiGpuManager_new (distributor_of SPLIT_FRAME_VERTICAL 1920 1080)
    = DivisionByZero.
Proof.
  assert (Hmode : distributionMode (distributor_of SPLIT_FRAME_VERTICAL 1920 1080)
                  <> SPLIT_FRAME_QUADRANTS) by (simpl; discriminate).
  split; [exact Hmode|].
  destruct (zero_devices_divide_by_zero (distributor_of SPLIT_FRAME_VERTICAL 1920 1080))
    as (_ & _ & _ & _ & Hframe).
  exact (Hframe Hmode).
Defined.

(** C8: in horizontal mode with [count >= 1] active devices there are
    [count] regions; every region but the last starts at [i * floor(w/count)]
    and is [floor(w/count)] wide; the last one ends at [w]; a column is in
    some region exactly when it is in [[0, w)].  For [count = 3], width 1920
    gives widths 640, 640, 640 and width 1921 gives 640, 640, 641. *)
Theorem horizontal_split_widths (mgr : VkMultiGpuManager) (d : VkFrameDistributor) :
  1 <= GetActiveGpuCount mgr ->
  is_u32 (frameWidth d) ->
  exists rs,
    ComputeHorizontalSplit mgr d = Returns rs /\
    length rs = Z.to_nat (GetActiveGpuCount mgr) /\
    (forall (i : nat) r, rs !! i = Some r -> Z.of_nat i < GetActiveGpuCount mgr - 1 ->
       offsetX r = Z.of_nat i * (frameWidth d / GetActiveGpuCount mgr) /\
       width r = frameWidth d / GetActiveGpuCount mgr) /\
    (exists r, last rs = Some r /\
       offsetX r = (GetActiveGpuCount mgr - 1) * (frameWidth d / GetActiveGpuCount mgr) /\
       width r = frameWidth d - offsetX r) /\
    (forall x, 0 <= x < frameWidth d <->
       exists r, r ∈ rs /\ offsetX r <= x < offsetX r + width r) /\
    (GetActiveGpuCount mgr = 3 -> frameWidth d = 1920 -> width <$> rs = [640; 640; 640]) /\
    (GetActiveGpuCount mgr = 3 -> frameWidth d = 1921 -> width <$> rs = [640; 640; 641]).
Proof.
  intros Hn Hw. pose proof (GetActiveGpuCount_range mgr) as Hrange.
  pose proof Hw as Hw'%is_u32_range.
  set (n := GetActiveGpuCount mgr) in *.
  pose proof (strip_lo_exact (frameWidth d) n Hw' Hn ltac:(lia)) as Hlo.
  eexists. split; [apply ComputeHorizontalSplit_returns, Hn|]. fold n.
  split; [by rewrite length_fmap, length_seqZ|].
  split; [|split; [|split; [|split]]].
  - intros i r [-> Hi]%lookup_fmap_seqZ Hlt. simpl. split.
    + apply Hlo. lia.
    + apply (strip_len_inner (frameWidth d) n); lia.
  - exists (horizontal_region d n (frameWidth d / n) (n - 1)). split.
    + rewrite last_lookup, length_fmap, length_seqZ.
      apply lookup_fmap_seqZ. split; [f_equal; lia|lia].
    + split.
      * change (strip_lo (frameWidth d) n (n - 1) = (n - 1) * (frameWidth d / n)).
        apply Hlo. lia.
      * change (strip_len (frameWidth d) n (n - 1)
                = frameWidth d - strip_lo (frameWidth d) n (n - 1)).
        rewrite strip_len_last, Hlo by lia. reflexivity.
  - intros x. split.
    + intros Hx.
      destruct (strip_no_gap (frameWidth d) n Hw' Hn ltac:(lia) x Hx) as (k & Hk & Hin).
      exists (horizontal_region d n (frameWidth d / n) k).
      split; [apply elem_of_fmap_seqZ; eauto|exact Hin].
    + intros (r & (k & Hk & ->)%elem_of_fmap_seqZ & Hin).
      apply (strip_inside (frameWidth d) n Hw' Hn ltac:(lia) k); auto.
  - intros Hc Hfw. unfold horizontal_region. rewrite Hc, Hfw. reflexivity.
  - intros Hc Hfw. unfold horizontal_region. rewrite Hc, Hfw. reflexivity.
Qed.

Lemma horizontal_split_widths_witness :
  1 <= GetActiveGpuCount (registry_of 3) /\
  is_u32 1921 /\
  exists rs,
    ComputeHorizontalSplit (registry_of 3) (distributor_of SPLIT_FRAME_HORIZONTAL 1921 1080)
      = Returns rs /\
    width <$> rs = [640; 640; 641].
Proof.
  assert (H1 : 1 <= GetActiveGpuCount (registry_of 3)) by (vm_compute; discriminate).
  assert (H2 : is_u32 1921) by (vm_compute; split; discriminate).
  split; [exact H1|]. split; [exact H2|].
  destruct (horizontal_split_widths (registry_of 3)
              (distributor_of SPLIT_FRAME_HORIZONTAL 1921 1080) H1 H2)
    as (rs & Hrs & _ & _ & _ & _ & _ & Hw).
  exists rs. split; [exact Hrs|]. apply Hw; reflexivity.
Defined.

(** ** The synchronizer *)

Lemma counter_in_range s g :
  0 <= g < Z.of_nat (length (currentFrameIds s)) -> is_Some (counter s g).
Proof.
  intros Hg. unfold counter. destruct (Z.leb_spec 0 g); [|lia].
  apply lookup_lt_is_Some. lia.
Qed.

Lemma counter_new mgr g :
  0 <= g < GetActiveGpuCount mgr ->
  counter (VkMultiGpuSynchronizer_new mgr) g = Some 0.
Proof.
  intros Hg. unfold counter, VkMultiGpuSynchronizer_new. simpl.
  destruct (Z.leb_spec 0 g); [|lia].
  apply lookup_replicate_2. lia.
Qed.

Lemma sized_for_new mgr : sized_for mgr (VkMultiGpuSynchronizer_new mgr).
Proof. split; simpl; rewrite length_replicate; lia. Qed.

Lemma counter_SignalFrameComplete s g' id g c :
  0 <= g' -> counter s g = Some c ->
  counter (SignalFrameComplete s g' id) g = Some (if g' =? g then id else c).
Proof.
  intros Hg' Hc. unfold counter in *. unfold SignalFrameComplete.
  destruct (Z.leb_spec 0 g); [|discriminate].
  apply lookup_lt_Some in Hc as Hlen.
  destruct (Z.eqb_spec g' g) as [->|Hne].
  - destruct (Z.ltb_spec g (Z.of_nat (length (currentFrameIds s)))); [|lia].
    simpl. apply list_lookup_insert_eq. exact Hlen.
  - destruct (Z.ltb_spec g' (Z.of_nat (length (currentFrameIds s)))); [|exact Hc].
    simpl. rewrite list_lookup_insert_ne by lia. exact Hc.
Qed.

(** What one call does to the counter of a device. *)
Lemma counter_sync_step s op g c :
  Forall is_u32 (sync_targets op) ->
  counter s g = Some c ->
  counter (sync_step s op) g =
  Some (match op with
        | OpSignalFrameComplete g' id => if g' =? g then id else c
        | _ => c
        end).
Proof.
  intros Hwf Hc. destruct op; simpl; try exact Hc.
  - unfold CreateTimelineSemaphore.
    destruct (_ <=? _); simpl; exact Hc.
  - apply counter_SignalFrameComplete; [|exact Hc].
    apply Forall_cons in Hwf as [[Hg _] _]. exact Hg.
Qed.

Lemma signals_ascend_step s op g c :
  Forall is_u32 (sync_targets op) ->
  signals_ascend s [op] ->
  counter s g = Some c ->
  exists c', counter (sync_step s op) g = Some c' /\ c <= c'.
Proof.
  intros Hwf [Hasc _] Hc.
  rewrite (counter_sync_step s op g c Hwf Hc). eexists. split; [reflexivity|].
  destruct op; try lia.
  destruct (Z.eqb_spec gpuIdx g) as [->|]; [|lia].
  rewrite Hc in Hasc. exact Hasc.
Qed.

Lemma signals_ascend_trace s ops :
  indices_u32 ops -> signals_ascend s ops ->
  forall (i j : nat) si sj g ci,
    (i <= j)%nat ->
    sync_trace s ops !! i = Some si -> sync_trace s ops !! j = Some sj ->
    counter si g = Some ci ->
    exists cj, counter sj g = Some cj /\ ci <= cj.
Proof.
  revert s. induction ops as [|op ops IH]; intros s Hwf Hasc i j si sj g ci Hij Hi Hj Hci.
  - destruct i; [|discriminate]. destruct j; [|discriminate].
    simpl in Hi, Hj. exists ci. split; [congruence|lia].
  - apply Forall_cons in Hwf as [Hop Hwf]. destruct Hasc as [Hhead Hasc].
    destruct i as [|i].
    + simpl in Hi. injection Hi as <-.
      destruct j as [|j]; simpl in Hj.
      * injection Hj as <-. exists ci. split; [exact Hci|lia].
      * destruct (signals_ascend_step s op g ci Hop (conj Hhead I) Hci) as (c1 & Hc1 & Hle).
        assert (sync_trace (sync_step s op) ops !! 0%nat = Some (sync_step s op)) as H0
          by (destruct ops; reflexivity).
        destruct (IH _ Hwf Hasc 0%nat j _ sj g c1 ltac:(lia) H0 Hj Hc1) as (cj & Hcj & Hle').
        exists cj. split; [exact Hcj|lia].
    + destruct j as [|j]; [lia|]. simpl in Hi, Hj.
      apply (IH _ Hwf Hasc i j si sj g ci ltac:(lia) Hi Hj Hci).
Qed.

(** ** Waiting among concurrent callers *)

Lemma wait_step_is_silent s op : is_wait op = true -> sync_step s op = s.
Proof. destruct op; (discriminate || reflexivity). Qed.

(** Dropping the waits turns a step of the threads into a step or into no
    step at all. *)
Lemma erase_waits_step c c' :
  thread_step code_call c c' ->
  rtc (thread_step code_call) (fst c, erase_waits <$> snd c)
    (fst c', erase_waits <$> snd c').
Proof.
  intros [t op ops s s' threads Ht Hcall]. cbn [fst snd].
  injection Hcall as <-. rewrite list_fmap_insert.
  destruct (is_wait op) eqn:Hop.
  - rewrite (wait_step_is_silent s op Hop).
    rewrite list_insert_id; [reflexivity|].
    rewrite list_lookup_fmap, Ht. cbn [fmap option_fmap option_map erase_waits List.filter].
    by rewrite Hop.
  - apply rtc_once. apply (thread_step_call code_call t op); [|reflexivity].
    rewrite list_lookup_fmap, Ht. cbn [fmap option_fmap option_map erase_waits List.filter].
    by rewrite Hop.
Qed.

(** A thread reaches its next call that is not a wait by returning from the
    waits before it, whatever the state. *)
Lemma run_through_waits l : forall op rest s threads (t : nat),
  erase_waits l = op :: rest ->
  threads !! t = Some l ->
  exists l', erase_waits l' = rest /\
    rtc (thread_step code_call) (s, threads) (sync_step s op, <[t := l']> threads).
Proof.
  induction l as [|a l IH]; intros op rest s threads t He Ht; [discriminate|].
  apply lookup_lt_Some in Ht as Hlt.
  unfold erase_waits in He. cbn [List.filter] in He.
  destruct (is_wait a) eqn:Ha; cbn [negb] in He.
  - destruct (IH op rest s (<[t := l]> threads) t He) as (l' & Hl' & Hrun).
    { by apply list_lookup_insert_eq. }
    exists l'. split; [exact Hl'|].
    rewrite list_insert_insert_eq in Hrun.
    eapply rtc_l; [|exact Hrun].
    rewrite <- (wait_step_is_silent s a Ha) at 2.
    by apply (thread_step_call code_call t a).
  - injection He as -> <-. exists l. split; [reflexivity|].
    apply rtc_once. by apply (thread_step_call code_call t op).
Qed.

Lemma restore_waits_step s threads c' :
  thread_step code_call (s, erase_waits <$> threads) c' ->
  exists threads',
    rtc (thread_step code_call) (s, threads) (fst c', threads') /\
    snd c' = erase_waits <$> threads'.
Proof.
  inversion 1 as [t op rest s0 s' ths Ht Hcall]; subst. cbn [fst snd].
  injection Hcall as <-.
  rewrite list_lookup_fmap in Ht.
  destruct (threads !! t) as [l|] eqn:Hl; [|discriminate].
  injection Ht as Ht.
  destruct (run_through_waits l op rest s threads t Ht Hl) as (l' & Hl' & Hrun).
  exists (<[t := l']> threads). split; [exact Hrun|].
  by rewrite list_fmap_insert, Hl'.
Qed.

Lemma erase_waits_run c c' :
  rtc (thread_step code_call) c c' ->
  rtc (thread_step code_call) (fst c, erase_waits <$> snd c)
    (fst c', erase_waits <$> snd c').
Proof.
  induction 1 as [c|c c1 c' Hstep _ IH]; [reflexivity|].
  etransitivity; [apply erase_waits_step, Hstep|exact IH].
Qed.

Lemma restore_waits_run ce ce' :
  rtc (thread_step code_call) ce ce' ->
  forall threads, snd ce = erase_waits <$> threads ->
  exists threads',
    rtc (thread_step code_call) (fst ce, threads) (fst ce', threads') /\
    snd ce' = erase_waits <$> threads'.
Proof.
  induction 1 as [ce|ce ce1 ce' Hstep _ IH]; intros threads Hth.
  - exists threads. split; [reflexivity|exact Hth].
  - destruct ce as [s ths]. cbn [fst snd] in *. subst ths.
    destruct (restore_waits_step s threads ce1 Hstep) as (th1 & Hrun1 & Hth1).
    destruct (IH th1 Hth1) as (th' & Hrun' & Hth').
    exists th'. split; [|exact Hth']. etransitivity; [exact Hrun1|exact Hrun'].
Qed.

(** C2, as stated, fails: on a synchronizer for one device whose counter is
    still 0, the call waiting for frame 1 returns, with the counter still 0,
    where a wait that blocks until the counter has reached 1 would not
    return. *)
Lemma wait_returns_before_signal :
  counter (VkMultiGpuSynchronizer_new (registry_of 1)) 0 = Some 0 /\
  0 < 1 /\
  code_call (VkMultiGpuSynchronizer_new (registry_of 1)) (OpWaitForFrameComplete 0 1)
    = Some (VkMultiGpuSynchronizer_new (registry_of 1)) /\
  counter (WaitForFrameComplete (VkMultiGpuSynchronizer_new (registry_of 1)) 0 1) 0
    = Some 0 /\
  spec_call (VkMultiGpuSynchronizer_new (registry_of 1)) (OpWaitForFrameComplete 0 1)
    = None.
Proof. repeat split; try (vm_compute; reflexivity). Qed.

(** With the wait that the spec asks for, a thread behind an unsignalled
    wait does not get further, and the calls after the wait have no effect;
    with the waits dropped they have.  So the blocking wait is told apart
    from the code by the property below. *)
Lemma blocking_wait_is_not_erasable :
  ~ reachable spec_call (VkMultiGpuSynchronizer_new (registry_of 2))
      [[OpWaitForFrameComplete 0 1; OpSignalFrameComplete 1 7]]
      (SignalFrameComplete (VkMultiGpuSynchronizer_new (registry_of 2)) 1 7) /\
  reachable spec_call (VkMultiGpuSynchronizer_new (registry_of 2))
      (erase_waits <$> [[OpWaitForFrameComplete 0 1; OpSignalFrameComplete 1 7]])
      (SignalFrameComplete (VkMultiGpuSynchronizer_new (registry_of 2)) 1 7).
Proof.
  split.
  - intros [threads' Hrun].
    remember (VkMultiGpuSynchronizer_new (registry_of 2),
              [[OpWaitForFrameComplete 0 1; OpSignalFrameComplete 1 7]]) as c eqn:Hc.
    remember (SignalFrameComplete (VkMultiGpuSynchronizer_new (registry_of 2)) 1 7,
              threads') as c' eqn:Hc'.
    destruct Hrun as [c|c c1 c' Hstep _].
    + rewrite Hc in Hc'. injection Hc' as Hstate _. vm_compute in Hstate. discriminate.
    + destruct Hstep as [t op ops s s' ths Ht Hcall].
      injection Hc as -> ->.
      destruct t as [|t]; [|by destruct t].
      injection Ht as <- <-. vm_compute in Hcall. discriminate.
  - exists [[]]. apply rtc_once.
    by apply (thread_step_call spec_call 0 (OpSignalFrameComplete 1 7) []).
Qed.

(** C2 (amended): [WaitForFrameComplete] never blocks its caller.  The call
    returns in every state, also while the counter is below the id, and
    leaves the synchronizer as it was; it does what the spec asks of a wait
    exactly in the states where the counter has already reached the id.  It
    orders nothing: whatever threads call the synchronizer concurrently, the
    states they can bring about are the same as with every
    [WaitForFrameComplete] call removed. *)
Theorem WaitForFrameComplete_orders_nothing :
  (forall s g id, code_call s (OpWaitForFrameComplete g id) = Some s) /\
  (forall s g id,
     spec_call s (OpWaitForFrameComplete g id) = code_call s (OpWaitForFrameComplete g id)
     <-> (forall c, counter s g = Some c -> id <= c)) /\
  (forall s threads s',
     reachable code_call s threads s' <->
     reachable code_call s (erase_waits <$> threads) s').
Proof.
  split; [reflexivity|]. split.
  - intros s g id. unfold spec_call, code_call. cbn [sync_step]. unfold WaitForFrameComplete.
    destruct (counter s g) as [c|].
    + destruct (Z.leb_spec id c) as [Hle|Hlt].
      * split; [|reflexivity]. intros _ c' [= <-]. exact Hle.
      * split; [discriminate|]. intros Hall. specialize (Hall c eq_refl). lia.
    + split; [|reflexivity]. intros _ c [=].
  - intros s threads s'. split.
    + intros [threads' Hrun]. exists (erase_waits <$> threads').
      exact (erase_waits_run _ _ Hrun).
    + intros [threads' Hrun].
      destruct (restore_waits_run _ _ Hrun threads eq_refl) as (th' & Hrun' & _).
      exists th'. exact Hrun'.
Qed.

Lemma WaitForFrameComplete_orders_nothing_witness :
  reachable code_call (VkMultiGpuSynchronizer_new (registry_of 2))
    (erase_waits <$> [[OpWaitForFrameComplete 0 1; OpSignalFrameComplete 1 7];
                      [OpSignalFrameComplete 0 1]])
    (SignalFrameComplete (VkMultiGpuSynchronizer_new (registry_of 2)) 1 7) /\
  reachable code_call (VkMultiGpuSynchronizer_new (registry_of 2))
    [[OpWaitForFrameComplete 0 1; OpSignalFrameComplete 1 7];
     [OpSignalFrameComplete 0 1]]
    (SignalFrameComplete (VkMultiGpuSynchronizer_new (registry_of 2)) 1 7).
Proof.
  assert (Herased :
    reachable code_call (VkMultiGpuSynchronizer_new (registry_of 2))
      (erase_waits <$> [[OpWaitForFrameComplete 0 1; OpSignalFrameComplete 1 7];
                        [OpSignalFrameComplete 0 1]])
      (SignalFrameComplete (VkMultiGpuSynchronizer_new (registry_of 2)) 1 7)).
  { exists [[]; [OpSignalFrameComplete 0 1]]. apply rtc_once.
    exact (thread_step_call code_call 0 (OpSignalFrameComplete 1 7) []
             (VkMultiGpuSynchronizer_new (registry_of 2)) _
             [[OpSignalFrameComplete 1 7]; [OpSignalFrameComplete 0 1]]
             eq_refl eq_refl). }
  split; [exact Herased|].
  destruct WaitForFrameComplete_orders_nothing as (_ & _ & Herase).
  exact (proj2 (Herase _ _ _) Herased).
Defined.

(** C4, as stated, fails: signalling frame 5 and then frame 3 on the same
    device brings its counter from 5 down to 3. *)
Lemma signal_lowers_counter :
  counter (VkMultiGpuSynchronizer_new (registry_of 1)) 0 = Some 0 /\
  counter (sync_run (VkMultiGpuSynchronizer_new (registry_of 1))
             [OpSignalFrameComplete 0 5]) 0 = Some 5 /\
  counter (sync_run (VkMultiGpuSynchronizer_new (registry_of 1))
             [OpSignalFrameComplete 0 5; OpSignalFrameComplete 0 3]) 0 = Some 3 /\
  3 < 5.
Proof. repeat split; try (vm_compute; reflexivity). Qed.

(** C4 (amended): every counter starts at 0; [SignalFrameComplete(d, id)]
    stores [id] in the counter of [d], whatever it held, and no other call
    and no call on another device changes it.  Hence along a run in which
    every signalled id is at least the counter it replaces, no counter ever
    falls below a value it held earlier. *)
Theorem counters_follow_signals (mgr : VkMultiGpuManager) :
  (forall g, 0 <= g < GetActiveGpuCount mgr ->
     counter (VkMultiGpuSynchronizer_new mgr) g = Some 0) /\
  (forall s op g c,
     Forall is_u32 (sync_targets op) ->
     counter s g = Some c ->
     counter (sync_step s op) g =
     Some (match op with
           | OpSignalFrameComplete g' id => if g' =? g then id else c
           | _ => c
           end)) /\
  (forall s ops,
     indices_u32 ops -> signals_ascend s ops ->
     forall (i j : nat) si sj g ci,
       (i <= j)%nat ->
       sync_trace s ops !! i = Some si -> sync_trace s ops !! j = Some sj ->
       counter si g = Some ci ->
       exists cj, counter sj g = Some cj /\ ci <= cj).
Proof.
  split; [exact (counter_new mgr)|]. split; [exact counter_sync_step|].
  exact signals_ascend_trace.
Qed.

Lemma counters_follow_signals_witness :
  0 <= 0 < GetActiveGpuCount (registry_of 1) /\
  counter (VkMultiGpuSynchronizer_new (registry_of 1)) 0 = Some 0 /\
  counter (sync_step (VkMultiGpuSynchronizer_new (registry_of 1))
             (OpSignalFrameComplete 0 7)) 0 = Some 7 /\
  exists cj,
    counter (sync_run (VkMultiGpuSynchronizer_new (registry_of 1))
               [OpSignalFrameComplete 0 7]) 0 = Some cj /\ 0 <= cj.
Proof.
  destruct (counters_follow_signals (registry_of 1)) as (Hinit & Hstep & Hrun).
  assert (Hr : 0 <= 0 < GetActiveGpuCount (registry_of 1))
    by (vm_compute; split; [discriminate|reflexivity]).
  assert (Hu : Forall is_u32 (sync_targets (OpSignalFrameComplete 0 7))).
  { repeat constructor; vm_compute; discriminate. }
  split; [exact Hr|]. split; [exact (Hinit 0 Hr)|]. split.
  - exact (Hstep _ (OpSignalFrameComplete 0 7) 0 0 Hu (Hinit 0 Hr)).
  - apply (Hrun (VkMultiGpuSynchronizer_new (registry_of 1)) [OpSignalFrameComplete 0 7]
             ltac:(repeat constructor; vm_compute; discriminate)
             ltac:(vm_compute; repeat split; discriminate)
             0%nat 1%nat _ _ 0 0 ltac:(lia) eq_refl eq_refl (Hinit 0 Hr)).
Defined.

(** ** Device indices past the active count *)

Lemma sync_step_out_of_range mgr s idx op :
  sized_for mgr s -> GetActiveGpuCount mgr <= idx -> idx ∈ sync_targets op ->
  sync_step s op = s /\
  (sync_result s op = None \/ sync_result s op = Some VK_NULL_HANDLE).
Proof.
  intros [Hts Hids] Hidx Hin. pose proof (GetActiveGpuCount_range mgr) as Hrange.
  destruct op; simpl in *; try (split; [reflexivity|auto]);
    apply list_elem_of_singleton in Hin as <-.
  - unfold CreateTimelineSemaphore.
    destruct (Z.leb_spec (Z.of_nat (length (timelineSemaphores s))) idx); [|lia].
    auto.
  - unfold SignalFrameComplete.
    destruct (Z.ltb_spec idx (Z.of_nat (length (currentFrameIds s)))); [lia|].
    auto.
Qed.

Section OutOfRange.
Context `{Vulkan}.

(** C7: a device index at or past the active count makes every
    device-indexed call of the registry and of the synchronizer return the
    absent result (no device, the null handle, [false]) and leave the
    registry, the driver and the synchronizer as they were. *)
Theorem out_of_range_index_is_noop
    (mgr : VkMultiGpuManager) (s : VkMultiGpuSynchronizer) (idx : Z) :
  Z.of_nat (length (gpuDevices mgr)) < 2 ^ 32 ->
  sized_for mgr s ->
  GetActiveGpuCount mgr <= idx ->
  GetGpuByIndex mgr idx = None /\
  (forall allocInfo, AllocateMemory mgr idx allocInfo = (VK_NULL_HANDLE, mgr)) /\
  (forall memory, FreeMemory mgr idx memory = mgr) /\
  SupportsAsyncComputeOnGpu mgr idx = false /\
  (forall initialValue,
     CreateTimelineSemaphore s idx initialValue = (VK_NULL_HANDLE, s)) /\
  (forall frameId, SignalFrameComplete s idx frameId = s) /\
  (forall op, idx ∈ sync_targets op ->
     sync_step s op = s /\
     (sync_result s op = None \/ sync_result s op = Some VK_NULL_HANDLE)).
Proof.
  intros Hlen Hsized Hidx.
  rewrite GetActiveGpuCount_length in Hidx by exact Hlen.
  assert (Hidx' : GetActiveGpuCount mgr <= idx)
    by (rewrite GetActiveGpuCount_length by exact Hlen; exact Hidx).
  repeat split.
  - unfold GetGpuByIndex.
    destruct (Z.ltb_spec idx (Z.of_nat (length (gpuDevices mgr)))); [lia|reflexivity].
  - intros allocInfo. unfold AllocateMemory.
    destruct (Z.leb_spec (Z.of_nat (length (gpuDevices mgr))) idx); [reflexivity|lia].
  - intros memory. unfold FreeMemory.
    destruct (Z.ltb_spec idx (Z.of_nat (length (gpuDevices mgr)))); [lia|reflexivity].
  - unfold SupportsAsyncComputeOnGpu.
    destruct (Z.leb_spec (Z.of_nat (length (gpuDevices mgr))) idx); [reflexivity|lia].
  - intros v.
    destruct Hsized as [Hts _]. pose proof (GetActiveGpuCount_range mgr).
    unfold CreateTimelineSemaphore.
    destruct (Z.leb_spec (Z.of_nat (length (timelineSemaphores s))) idx);
      [reflexivity|lia].
  - intros id.
    apply (sync_step_out_of_range mgr s idx (OpSignalFrameComplete idx id) Hsized Hidx').
    simpl. repeat constructor.
  - apply (sync_step_out_of_range mgr s idx op Hsized Hidx'). assumption.
  - apply (sync_step_out_of_range mgr s idx op Hsized Hidx'). assumption.
Qed.

End OutOfRange.

Lemma out_of_range_index_is_noop_witness :
  Z.of_nat (length (gpuDevices (registry_of 2))) < 2 ^ 32 /\
  sized_for (registry_of 2) (VkMultiGpuSynchronizer_new (registry_of 2)) /\
  GetActiveGpuCount (registry_of 2) <= 2 /\
  GetGpuByIndex (registry_of 2) 2 = None /\
  SignalFrameComplete (VkMultiGpuSynchronizer_new (registry_of 2)) 2 9
    = VkMultiGpuSynchronizer_new (registry_of 2).
Proof.
  assert (H1 : Z.of_nat (length (gpuDevices (registry_of 2))) < 2 ^ 32)
    by (vm_compute; reflexivity).
  assert (H2 : sized_for (registry_of 2) (VkMultiGpuSynchronizer_new (registry_of 2)))
    by (vm_compute; split; reflexivity).
  assert (H3 : GetActiveGpuCount (registry_of 2) <= 2)
    by (vm_compute; discriminate).
  destruct (@out_of_range_index_is_noop
              (sample_vulkan [1; 2] (fun _ => universal_family))
              (registry_of 2) (VkMultiGpuSynchronizer_new (registry_of 2)) 2 H1 H2 H3)
    as (Hget & _ & _ & _ & _ & Hsig & _).
  split; [exact H1|]. split; [exact H2|]. split; [exact H3|].
  split; [exact Hget|apply Hsig].
Defined.

(** ** Queue-family selection *)

Lemma wrap32_succ i : 0 <= i < UINT32_MAX -> wrap32 (i + 1) = i + 1.
Proof. unfold UINT32_MAX. intros Hi. apply wrap32_small. lia. Qed.

Section Selection.
Context `{Vulkan}.

(** The graphics index after the loop: the last family with the bit, or
    the value held before the loop. *)
Lemma select_loop_graphics fams : forall i g c t,
  0 <= i -> i + Z.of_nat (length fams) <= UINT32_MAX ->
  (fst (fst (select_loop i fams g c t)) = g /\
   forall (k : nat) qf, fams !! k = Some qf ->
     has_flag (queueFlags qf) VK_QUEUE_GRAPHICS_BIT = false)
  \/
  (exists (k : nat) qf,
     fst (fst (select_loop i fams g c t)) = i + Z.of_nat k /\
     fams !! k = Some qf /\ has_flag (queueFlags qf) VK_QUEUE_GRAPHICS_BIT = true /\
     forall (k' : nat) qf', (k < k')%nat -> fams !! k' = Some qf' ->
       has_flag (queueFlags qf') VK_QUEUE_GRAPHICS_BIT = false).
Proof.
  induction fams as [|qf0 fams IH]; intros i g c t Hi Hlen.
  - left. split; [reflexivity|]. intros k qf Hk. by rewrite lookup_nil in Hk.
  - cbn [select_loop]. cbn [length] in Hlen.
    rewrite wrap32_succ by lia.
    match goal with |- context [select_loop _ _ ?g0 ?c0 ?t0] =>
      destruct (IH (i + 1) g0 c0 t0 ltac:(lia) ltac:(lia))
        as [[Hg Hnone]|(k & qf & Hg & Hk & Hf & Hlast)]
    end.
    + destruct (has_flag (queueFlags qf0) VK_QUEUE_GRAPHICS_BIT) eqn:H0.
      * right. exists 0%nat, qf0. rewrite Hg.
        split; [lia|]. split; [reflexivity|]. split; [exact H0|].
        intros k' qf' Hlt Hk'. destruct k' as [|k']; [lia|]. exact (Hnone k' qf' Hk').
      * left. split; [exact Hg|].
        intros k qf Hk. destruct k as [|k]; [|exact (Hnone k qf Hk)].
        simpl in Hk. by injection Hk as <-.
    + right. exists (S k), qf. rewrite Hg.
      split; [lia|]. split; [exact Hk|]. split; [exact Hf|].
      intros k' qf' Hlt Hk'. destruct k' as [|k']; [lia|].
      apply (Hlast k' qf'); [lia|exact Hk'].
Qed.

(** The compute and the transfer index have one shape: a value written
    before the loop stays; otherwise the first family with the bit is
    taken. *)
Lemma select_loop_compute fams : forall i g c t,
  0 <= i -> i + Z.of_nat (length fams) <= UINT32_MAX ->
  (c <> UINT32_MAX -> snd (fst (select_loop i fams g c t)) = c) /\
  (c = UINT32_MAX ->
   (snd (fst (select_loop i fams g c t)) = UINT32_MAX /\
    forall (k : nat) qf, fams !! k = Some qf ->
      has_flag (queueFlags qf) VK_QUEUE_COMPUTE_BIT = false)
   \/
   (exists (k : nat) qf,
      snd (fst (select_loop i fams g c t)) = i + Z.of_nat k /\
      fams !! k = Some qf /\ has_flag (queueFlags qf) VK_QUEUE_COMPUTE_BIT = true /\
      forall (k' : nat) qf', (k' < k)%nat -> fams !! k' = Some qf' ->
        has_flag (queueFlags qf') VK_QUEUE_COMPUTE_BIT = false)).
Proof.
  induction fams as [|qf0 fams IH]; intros i g c t Hi Hlen.
  - split; [reflexivity|]. intros ->. left. split; [reflexivity|].
    intros k qf Hk. by rewrite lookup_nil in Hk.
  - cbn [length] in Hlen. cbn [select_loop].
    rewrite wrap32_succ by lia.
    match goal with |- context [select_loop _ _ ?g0 ?c0 ?t0] =>
      destruct (IH (i + 1) g0 c0 t0 ltac:(lia) ltac:(lia)) as [Hkeep Htake]
    end.
    split.
    + intros Hset.
      destruct (Z.eqb_spec c UINT32_MAX) as [|_]; [contradiction|].
      rewrite andb_false_r in Hkeep |- *. exact (Hkeep Hset).
    + intros ->. rewrite Z.eqb_refl, andb_true_r in Hkeep, Htake |- *.
      destruct (has_flag (queueFlags qf0) VK_QUEUE_COMPUTE_BIT) eqn:H0.
      * right. exists 0%nat, qf0. rewrite Hkeep by (unfold UINT32_MAX in *; lia).
        split; [lia|]. split; [reflexivity|]. split; [exact H0|].
        intros k' qf' Hlt. lia.
      * destruct (Htake eq_refl) as [[Hc Hnone]|(k & qf & Hc & Hk & Hf & Hfirst)].
        -- left. split; [exact Hc|].
           intros k qf Hk. destruct k as [|k]; [|exact (Hnone k qf Hk)].
           simpl in Hk. by injection Hk as <-.
        -- right. exists (S k), qf. rewrite Hc.
           split; [lia|]. split; [exact Hk|]. split; [exact Hf|].
           intros k' qf' Hlt Hk'. destruct k' as [|k'].
           ++ simpl in Hk'. by injection Hk' as <-.
           ++ apply (Hfirst k' qf'); [lia|exact Hk'].
Qed.

Lemma select_loop_transfer fams : forall i g c t,
  0 <= i -> i + Z.of_nat (length fams) <= UINT32_MAX ->
  (t <> UINT32_MAX -> snd (select_loop i fams g c t) = t) /\
  (t = UINT32_MAX ->
   (snd (select_loop i fams g c t) = UINT32_MAX /\
    forall (k : nat) qf, fams !! k = Some qf ->
      has_flag (queueFlags qf) VK_QUEUE_TRANSFER_BIT = false)
   \/
   (exists (k : nat) qf,
      snd (select_loop i fams g c t) = i + Z.of_nat k /\
      fams !! k = Some qf /\ has_flag (queueFlags qf) VK_QUEUE_TRANSFER_BIT = true /\
      forall (k' : nat) qf', (k' < k)%nat -> fams !! k' = Some qf' ->
        has_flag (queueFlags qf') VK_QUEUE_TRANSFER_BIT = false)).
Proof.
  induction fams as [|qf0 fams IH]; intros i g c t Hi Hlen.
  - split; [reflexivity|]. intros ->. left. split; [reflexivity|].
    intros k qf Hk. by rewrite lookup_nil in Hk.
  - cbn [length] in Hlen. cbn [select_loop].
    rewrite wrap32_succ by lia.
    match goal with |- context [select_loop _ _ ?g0 ?c0 ?t0] =>
      destruct (IH (i + 1) g0 c0 t0 ltac:(lia) ltac:(lia)) as [Hkeep Htake]
    end.
    split.
    + intros Hset.
      destruct (Z.eqb_spec t UINT32_MAX) as [|_]; [contradiction|].
      rewrite andb_false_r in Hkeep |- *. exact (Hkeep Hset).
    + intros ->. rewrite Z.eqb_refl, andb_true_r in Hkeep, Htake |- *.
      destruct (has_flag (queueFlags qf0) VK_QUEUE_TRANSFER_BIT) eqn:H0.
      * right. exists 0%nat, qf0. rewrite Hkeep by (unfold UINT32_MAX in *; lia).
        split; [lia|]. split; [reflexivity|]. split; [exact H0|].
        intros k' qf' Hlt. lia.
      * destruct (Htake eq_refl) as [[Hc Hnone]|(k & qf & Hc & Hk & Hf & Hfirst)].
        -- left. split; [exact Hc|].
           intros k qf Hk. destruct k as [|k]; [|exact (Hnone k qf Hk)].
           simpl in Hk. by injection Hk as <-.
        -- right. exists (S k), qf. rewrite Hc.
           split; [lia|]. split; [exact Hk|]. split; [exact Hf|].
           intros k' qf' Hlt Hk'. destruct k' as [|k'].
           ++ simpl in Hk'. by injection Hk' as <-.
           ++ apply (Hfirst k' qf'); [lia|exact Hk'].
Qed.

End Selection.

Section SelectionClaims.
Context `{Vulkan}.

(** C5 (amended): the graphics family is the last enumerated family with
    the graphics bit; the compute family is the first family with the
    compute bit and the transfer family the first family with the transfer
    bit, in both cases whether or not that family is also the graphics (or
    compute) family; each is the sentinel when no family has the bit.  The
    device is rejected exactly when no family has the graphics bit. *)
Theorem SelectQueueFamilyIndices_selects (device : Z) (gpuInfo : VkGpuDevice) :
  Z.of_nat (length (vkGetPhysicalDeviceQueueFamilyProperties device)) <= UINT32_MAX ->
  last_with VK_QUEUE_GRAPHICS_BIT
    (vkGetPhysicalDeviceQueueFamilyProperties device)
    (graphicsQueueFamilyIndex (snd (SelectQueueFamilyIndices device gpuInfo))) /\
  first_with VK_QUEUE_COMPUTE_BIT []
    (vkGetPhysicalDeviceQueueFamilyProperties device)
    (computeQueueFamilyIndex (snd (SelectQueueFamilyIndices device gpuInfo))) /\
  first_with VK_QUEUE_TRANSFER_BIT []
    (vkGetPhysicalDeviceQueueFamilyProperties device)
    (transferQueueFamilyIndex (snd (SelectQueueFamilyIndices device gpuInfo))) /\
  (fst (SelectQueueFamilyIndices device gpuInfo) = false <->
   forall (k : nat) qf,
     vkGetPhysicalDeviceQueueFamilyProperties device !! k = Some qf ->
     has_flag (queueFlags qf) VK_QUEUE_GRAPHICS_BIT = false).
Proof.
  intros Hlen. unfold SelectQueueFamilyIndices.
  set (fams := vkGetPhysicalDeviceQueueFamilyProperties device) in *.
  pose proof (select_loop_graphics fams 0 UINT32_MAX UINT32_MAX UINT32_MAX
                ltac:(lia) ltac:(lia)) as Hg.
  destruct (select_loop_compute fams 0 UINT32_MAX UINT32_MAX UINT32_MAX
              ltac:(lia) ltac:(lia)) as [_ Hc].
  destruct (select_loop_transfer fams 0 UINT32_MAX UINT32_MAX UINT32_MAX
              ltac:(lia) ltac:(lia)) as [_ Ht].
  specialize (Hc eq_refl). specialize (Ht eq_refl).
  destruct (select_loop 0 fams UINT32_MAX UINT32_MAX UINT32_MAX) as [[gi ci] ti].
  cbn [fst snd] in *. cbn [set_families graphicsQueueFamilyIndex
    computeQueueFamilyIndex transferQueueFamilyIndex].
  repeat split.
  - destruct Hg as [[-> Hnone]|(k & qf & -> & Hk & Hf & Hlast)].
    + left. auto.
    + right. exists k, qf. rewrite Z.add_0_l. auto.
  - destruct Hc as [[-> Hnone]|(k & qf & -> & Hk & Hf & Hfirst)].
    + left. split; [reflexivity|]. intros k qf Hk [Hf _].
      rewrite (Hnone k qf Hk) in Hf. discriminate.
    + right. exists k, qf. rewrite Z.add_0_l.
      split; [reflexivity|]. split; [exact Hk|].
      split; [split; [exact Hf|apply not_elem_of_nil]|].
      intros k' qf' Hlt Hk' [Hf' _]. rewrite (Hfirst k' qf' Hlt Hk') in Hf'. discriminate.
  - destruct Ht as [[-> Hnone]|(k & qf & -> & Hk & Hf & Hfirst)].
    + left. split; [reflexivity|]. intros k qf Hk [Hf _].
      rewrite (Hnone k qf Hk) in Hf. discriminate.
    + right. exists k, qf. rewrite Z.add_0_l.
      split; [reflexivity|]. split; [exact Hk|].
      split; [split; [exact Hf|apply not_elem_of_nil]|].
      intros k' qf' Hlt Hk' [Hf' _]. rewrite (Hfirst k' qf' Hlt Hk') in Hf'. discriminate.
  - intros Hrej. destruct Hg as [[_ Hnone]|(k & qf & -> & Hk & Hf & _)]; [exact Hnone|].
    apply lookup_lt_Some in Hk. fold fams in Hlen.
    destruct (Z.eqb_spec (0 + Z.of_nat k) UINT32_MAX); [lia|discriminate].
  - intros Hnone. destruct Hg as [[-> _]|(k & qf & _ & Hk & Hf & _)]; [reflexivity|].
    rewrite (Hnone k qf Hk) in Hf. discriminate.
Qed.

End SelectionClaims.

(** C5, as stated, fails: with a first family that does graphics and
    compute and a second one that does compute only, the code resolves
    compute to family 0, which graphics has claimed, and not to family 1. *)
Lemma compute_family_may_be_graphics_family :
  graphicsQueueFamilyIndex
    (snd (@SelectQueueFamilyIndices
            (sample_vulkan [1] (fun _ => [ {| queueFlags := 3 |}; {| queueFlags := 2 |} ]))
            1 VkGpuDevice_zero)) = 0 /\
  computeQueueFamilyIndex
    (snd (@SelectQueueFamilyIndices
            (sample_vulkan [1] (fun _ => [ {| queueFlags := 3 |}; {| queueFlags := 2 |} ]))
            1 VkGpuDevice_zero)) = 0 /\
  ~ first_with 2 [0] [ {| queueFlags := 3 |}; {| queueFlags := 2 |} ] 0 /\
  first_with 2 [0] [ {| queueFlags := 3 |}; {| queueFlags := 2 |} ] 1.
Proof.
  split; [vm_compute; reflexivity|]. split; [vm_compute; reflexivity|]. split.
  - intros [[Hmax _]|(k & qf & Hidx & Hk & [_ Hfree] & _)]; [discriminate|].
    apply Hfree. replace (Z.of_nat k) with 0 by lia. constructor.
  - right. exists 1%nat, {| queueFlags := 2 |}.
    split; [reflexivity|]. split; [reflexivity|]. split.
    + split; [reflexivity|]. intros Hin. apply list_elem_of_singleton in Hin. discriminate.
    + intros k' qf' Hlt Hk' [_ Hfree]. apply Hfree.
      replace (Z.of_nat k') with 0 by lia. constructor.
Qed.

Lemma SelectQueueFamilyIndices_selects_witness :
  Z.of_nat (length [ {| queueFlags := 3 |}; {| queueFlags := 2 |} ]) <= UINT32_MAX /\
  first_with 2 [] [ {| queueFlags := 3 |}; {| queueFlags := 2 |} ] 0 /\
  last_with 1 [ {| queueFlags := 3 |}; {| queueFlags := 2 |} ] 0.
Proof.
  assert (Hlen : Z.of_nat (length [ {| queueFlags := 3 |}; {| queueFlags := 2 |} ])
                 <= UINT32_MAX) by (vm_compute; discriminate).
  split; [exact Hlen|].
  destruct (@SelectQueueFamilyIndices_selects
              (sample_vulkan [1] (fun _ => [ {| queueFlags := 3 |}; {| queueFlags := 2 |} ]))
              1 VkGpuDevice_zero Hlen) as (Hg & Hc & _).
  split; [exact Hc|exact Hg].
Defined.

(** ** Bring-up of the active set *)

Section Initialization.
Context `{Vulkan}.

Lemma init_loop_length_bounds cands : forall i mgr,
  (length (gpuDevices mgr) <= length (gpuDevices (init_loop i cands mgr))
   <= length (gpuDevices mgr) + length cands)%nat.
Proof.
  induction cands as [|device cands IH]; intros i mgr; cbn [init_loop length].
  - lia.
  - destruct (bring_up i device) as [pushed calls].
    match goal with |- context [init_loop ?j cands ?m] => specialize (IH j m) end.
    cbn [gpuDevices] in IH. rewrite length_app in IH.
    destruct pushed; simpl in IH |- *; lia.
Qed.

(** The loop pushes every candidate exactly when every candidate passes
    queue-family selection and logical-device creation. *)
Lemma init_loop_length_full cands : forall i mgr,
  0 <= i -> i + Z.of_nat (length cands) <= UINT32_MAX ->
  length (gpuDevices (init_loop i cands mgr))
    = (length (gpuDevices mgr) + length cands)%nat
  <->
  forall (k : nat) device, cands !! k = Some device ->
    is_Some (fst (bring_up (i + Z.of_nat k) device)).
Proof.
  induction cands as [|device cands IH]; intros i mgr Hi Hlen; cbn [init_loop length] in *.
  - split; [|lia]. intros _ k device Hk. by rewrite lookup_nil in Hk.
  - rewrite wrap32_succ by lia.
    destruct (bring_up i device) as [pushed calls] eqn:Hbring.
    match goal with |- context [init_loop ?j cands ?m] =>
      pose proof (init_loop_length_bounds cands j m) as Hb;
      specialize (IH j m ltac:(lia) ltac:(lia))
    end.
    cbn [gpuDevices] in IH, Hb. rewrite length_app in IH, Hb.
    destruct pushed as [gpu|]; simpl in IH, Hb |- *.
    + split.
      * intros Hfull k dev Hk. destruct k as [|k].
        -- simpl in Hk. injection Hk as <-. rewrite Z.add_0_r, Hbring. by eexists.
        -- replace (i + Z.of_nat (S k)) with (i + 1 + Z.of_nat k) by lia.
           apply IH; [lia|exact Hk].
      * intros Hall.
        assert (Hrest : forall (k : nat) dev, cands !! k = Some dev ->
                  is_Some (fst (bring_up (i + 1 + Z.of_nat k) dev))).
        { intros k dev Hk.
          replace (i + 1 + Z.of_nat k) with (i + Z.of_nat (S k)) by lia.
          apply Hall. exact Hk. }
        apply IH in Hrest. lia.
    + split; [lia|]. intros Hall.
      specialize (Hall 0%nat device eq_refl). rewrite Z.add_0_r, Hbring in Hall.
      by destruct Hall.
Qed.

Lemma std_min_spec a b : std_min a b = Z.min a b.
Proof. unfold std_min. destruct (Z.ltb_spec b a); lia. Qed.

(** C6 (amended): on a fresh registry, the active count after
    [InitializeMultiGpu] is at most [min(desiredCount, available)], and it
    is equal to it exactly when each of the first [min(desiredCount,
    available)] enumerated devices passes queue-family selection and
    logical-device creation; a device that fails either is left out and
    lowers the count.  With no enumerated device the call fails and
    registers nothing, and the call succeeds exactly when the active set is
    not empty. *)
Theorem InitializeMultiGpu_active_count (instance desiredGpuCount : Z) :
  is_u32 desiredGpuCount ->
  Z.of_nat (length (vkEnumeratePhysicalDevices instance)) <= UINT32_MAX ->
  GetActiveGpuCount (snd (InitializeMultiGpu VkMultiGpuManager_new instance desiredGpuCount))
    <= Z.min desiredGpuCount (Z.of_nat (length (vkEnumeratePhysicalDevices instance))) /\
  (GetActiveGpuCount (snd (InitializeMultiGpu VkMultiGpuManager_new instance desiredGpuCount))
     = Z.min desiredGpuCount (Z.of_nat (length (vkEnumeratePhysicalDevices instance)))
   <->
   forall (k : nat) device,
     Z.of_nat k < desiredGpuCount ->
     vkEnumeratePhysicalDevices instance !! k = Some device ->
     is_Some (fst (bring_up (Z.of_nat k) device))) /\
  (vkEnumeratePhysicalDevices instance = [] ->
   fst (InitializeMultiGpu VkMultiGpuManager_new instance desiredGpuCount) = false /\
   gpuDevices (snd (InitializeMultiGpu VkMultiGpuManager_new instance desiredGpuCount)) = []) /\
  (fst (InitializeMultiGpu VkMultiGpuManager_new instance desiredGpuCount) = true <->
   1 <= GetActiveGpuCount
          (snd (InitializeMultiGpu VkMultiGpuManager_new instance desiredGpuCount))).
Proof.
  intros Hdes Havail. unfold is_u32 in Hdes.
  set (devices := vkEnumeratePhysicalDevices instance) in *.
  assert (Hmax : UINT32_MAX = 2 ^ 32 - 1) by reflexivity.
  unfold InitializeMultiGpu. fold devices.
  rewrite (wrap32_small (Z.of_nat (length devices))) by lia.
  rewrite std_min_spec.
  destruct (Z.eqb_spec (Z.of_nat (length devices)) 0) as [Hzero|Hnz].
  - assert (devices = []) as -> by (destruct devices; [reflexivity|simpl in Hzero; lia]).
    cbn. unfold GetActiveGpuCount. cbn. change (wrap32 (Z.of_nat 0)) with 0.
    split; [lia|]. split; [|split].
    + split; [|lia]. intros _ k device _ Hk. by rewrite lookup_nil in Hk.
    + auto.
    + split; [discriminate|lia].
  - set (n := Z.min (Z.of_nat (length devices)) desiredGpuCount).
    replace (Z.min desiredGpuCount (Z.of_nat (length devices))) with n by lia.
    assert (Hn : 0 <= n <= UINT32_MAX /\ n <= desiredGpuCount
                 /\ n <= Z.of_nat (length devices)
                 /\ (n = desiredGpuCount \/ n = Z.of_nat (length devices)))
      by (unfold n; lia).
    set (mgr0 := {| gpuDevices := gpuDevices VkMultiGpuManager_new;
                    vkInstance := instance;
                    driverLog := driverLog VkMultiGpuManager_new |}).
    set (cands := take (Z.to_nat n) devices).
    assert (Hcl : length cands = Z.to_nat n)
      by (unfold cands; rewrite length_take; lia).
    pose proof (init_loop_length_bounds cands 0 mgr0) as Hb.
    pose proof (init_loop_length_full cands 0 mgr0 ltac:(lia) ltac:(lia)) as Hfull.
    cbn [snd fst].
    change (length (gpuDevices mgr0)) with 0%nat in Hb, Hfull.
    rewrite GetActiveGpuCount_length by lia.
    split; [lia|]. split; [|split].
    + split.
      * intros Heq k device Hk Hdev.
        assert (Hkn : Z.of_nat k < n) by (apply lookup_lt_Some in Hdev; lia).
        apply (proj1 Hfull ltac:(lia) k device).
        unfold cands. rewrite lookup_take_lt by lia. exact Hdev.
      * intros Hall.
        assert (length (gpuDevices (init_loop 0 cands mgr0)) = (0 + length cands)%nat);
          [|lia].
        apply Hfull. intros k device Hk.
        unfold cands in Hk. apply lookup_take_Some in Hk as [Hk Hlt].
        rewrite Z.add_0_l. apply Hall; [lia|exact Hk].
    + intros Hnil. rewrite Hnil in Hnz. simpl in Hnz. lia.
    + destruct (gpuDevices (init_loop 0 cands mgr0)) as [|gpu rest] eqn:Hlist.
      * rewrite bool_decide_eq_true_2 by reflexivity. simpl. split; [discriminate|lia].
      * rewrite bool_decide_eq_false_2 by discriminate. simpl. split; [lia|reflexivity].
Qed.

End Initialization.

(** C6, as stated, fails: of two enumerated devices the second has no
    graphics family; asked for three, the registry ends with one active
    device, not two. *)
Lemma rejected_device_lowers_active_count :
  @vkEnumeratePhysicalDevices
    (sample_vulkan [1; 2]
       (fun pd => if pd =? 1 then universal_family else [ {| queueFlags := 2 |} ])) 1
    = [1; 2] /\
  2 < 3 /\
  fst (@InitializeMultiGpu
         (sample_vulkan [1; 2]
            (fun pd => if pd =? 1 then universal_family else [ {| queueFlags := 2 |} ]))
         VkMultiGpuManager_new 1 3) = true /\
  GetActiveGpuCount
    (snd (@InitializeMultiGpu
            (sample_vulkan [1; 2]
               (fun pd => if pd =? 1 then universal_family else [ {| queueFlags := 2 |} ]))
            VkMultiGpuManager_new 1 3)) = 1.
Proof. repeat split; vm_compute; reflexivity. Qed.

Lemma InitializeMultiGpu_active_count_witness :
  is_u32 5 /\
  Z.of_nat (length [1; 2]) <= UINT32_MAX /\
  GetActiveGpuCount
    (snd (@InitializeMultiGpu (sample_vulkan [1; 2] (fun _ => universal_family))
            VkMultiGpuManager_new 1 5)) <= 2.
Proof.
  assert (H5 : is_u32 5) by (vm_compute; split; discriminate).
  assert (Hlen : Z.of_nat (length [1; 2]) <= UINT32_MAX) by (vm_compute; discriminate).
  split; [exact H5|]. split; [exact Hlen|].
  exact (proj1 (@InitializeMultiGpu_active_count
                  (sample_vulkan [1; 2] (fun _ => universal_family)) 1 5 H5 Hlen)).
Defined.

(** ** The memory placement manager *)

Lemma only_null_keys_new : only_null_keys VkMultiGpuMemoryManager_new.
Proof. split; intros h _; apply lookup_empty. Qed.

(** What each call does to the two maps. *)
Lemma buffers_AllocateBuffer m u z st t :
  bufferStrategies (snd (AllocateBuffer m u z st t))
  = <[VK_NULL_HANDLE := st]> (bufferStrategies m).
Proof. reflexivity. Qed.

Lemma images_AllocateBuffer m u z st t :
  imageStrategies (snd (AllocateBuffer m u z st t)) = imageStrategies m.
Proof. reflexivity. Qed.

Lemma buffers_AllocateImage m i st t :
  bufferStrategies (snd (AllocateImage m i st t)) = bufferStrategies m.
Proof. reflexivity. Qed.

Lemma images_AllocateImage m i st t :
  imageStrategies (snd (AllocateImage m i st t))
  = <[VK_NULL_HANDLE := st]> (imageStrategies m).
Proof. reflexivity. Qed.

Lemma buffers_FreeBuffer m b :
  bufferStrategies (FreeBuffer m b) = delete b (bufferStrategies m).
Proof. reflexivity. Qed.

Lemma images_FreeBuffer m b : imageStrategies (FreeBuffer m b) = imageStrategies m.
Proof. reflexivity. Qed.

Lemma buffers_FreeImage m i : bufferStrategies (FreeImage m i) = bufferStrategies m.
Proof. reflexivity. Qed.

Lemma images_FreeImage m i :
  imageStrategies (FreeImage m i) = delete i (imageStrategies m).
Proof. reflexivity. Qed.

Lemma only_null_keys_step m op : only_null_keys m -> only_null_keys (mem_step m op).
Proof.
  intros [Hb Hi].
  destruct op; cbn [mem_step]; try (split; assumption); split; intros h Hh;
    rewrite ?buffers_AllocateBuffer, ?images_AllocateBuffer, ?buffers_AllocateImage,
      ?images_AllocateImage, ?buffers_FreeBuffer, ?images_FreeBuffer,
      ?buffers_FreeImage, ?images_FreeImage;
    rewrite ?lookup_insert_ne by congruence;
    rewrite ?lookup_delete_None; auto.
Qed.

Lemma only_null_keys_run ops : forall m,
  only_null_keys m -> only_null_keys (mem_run m ops).
Proof.
  induction ops as [|op ops IH]; intros m Hm; [exact Hm|].
  apply IH, only_null_keys_step, Hm.
Qed.

Lemma null_keys_size (bs : gmap Z MemoryPlacementStrategy) :
  (forall h, h <> VK_NULL_HANDLE -> bs !! h = None) ->
  dom bs ⊆ {[ VK_NULL_HANDLE ]} /\ (size bs <= 1)%nat.
Proof.
  intros Hnull.
  assert (Hdom : dom bs ⊆ ({[ VK_NULL_HANDLE ]} : gset Z)).
  { intros h Hh. apply elem_of_singleton.
    destruct (decide (h = VK_NULL_HANDLE)) as [|Hne]; [assumption|].
    apply elem_of_dom in Hh. rewrite (Hnull h Hne) in Hh. by destruct Hh. }
  split; [exact Hdom|].
  rewrite <- size_dom. apply subseteq_size in Hdom.
  rewrite size_singleton in Hdom. exact Hdom.
Qed.

(** C9: freeing a buffer handle that has no placement record leaves the
    manager as it was, and right after [AllocateBuffer] the record under
    the returned handle is the strategy that was passed in. *)
Theorem free_unrecorded_and_lookup_after_allocate (m : VkMultiGpuMemoryManager) :
  (forall buffer,
     bufferStrategies m !! buffer = None -> FreeBuffer m buffer = m) /\
  (forall usage size strategy targetGpus,
     bufferStrategies (snd (AllocateBuffer m usage size strategy targetGpus))
       !! fst (AllocateBuffer m usage size strategy targetGpus)
     = Some strategy).
Proof.
  split.
  - intros buffer Hnone. unfold FreeBuffer. rewrite delete_id by exact Hnone.
    by destruct m.
  - intros usage size strategy targetGpus. rewrite buffers_AllocateBuffer.
    apply lookup_insert_eq.
Qed.

Lemma free_unrecorded_and_lookup_after_allocate_witness :
  bufferStrategies VkMultiGpuMemoryManager_new !! 7 = None /\
  FreeBuffer VkMultiGpuMemoryManager_new 7 = VkMultiGpuMemoryManager_new /\
  bufferStrategies (snd (AllocateBuffer VkMultiGpuMemoryManager_new 0 64 PINNED_HOST []))
    !! fst (AllocateBuffer VkMultiGpuMemoryManager_new 0 64 PINNED_HOST [])
  = Some PINNED_HOST.
Proof.
  assert (Hnone : bufferStrategies VkMultiGpuMemoryManager_new !! 7 = None)
    by reflexivity.
  destruct (free_unrecorded_and_lookup_after_allocate VkMultiGpuMemoryManager_new)
    as [Hfree Hlook].
  split; [exact Hnone|]. split; [exact (Hfree 7 Hnone)|apply Hlook].
Defined.

(** C10: [AllocateBuffer] and [AllocateImage] return the null handle
    whatever they are given.  So along every run from a fresh manager each
    placement map has the null handle as its only possible key and holds at
    most one entry, and a second allocation replaces the strategy recorded
    by the first: the map is the one the second allocation alone would have
    produced. *)
Theorem allocations_share_the_null_handle :
  (forall m usage size strategy targetGpus,
     fst (AllocateBuffer m usage size strategy targetGpus) = VK_NULL_HANDLE) /\
  (forall m imageInfo strategy targetGpus,
     fst (AllocateImage m imageInfo strategy targetGpus) = VK_NULL_HANDLE) /\
  (forall ops,
     dom (bufferStrategies (mem_run VkMultiGpuMemoryManager_new ops))
       ⊆ {[ VK_NULL_HANDLE ]} /\
     (size (bufferStrategies (mem_run VkMultiGpuMemoryManager_new ops)) <= 1)%nat /\
     dom (imageStrategies (mem_run VkMultiGpuMemoryManager_new ops))
       ⊆ {[ VK_NULL_HANDLE ]} /\
     (size (imageStrategies (mem_run VkMultiGpuMemoryManager_new ops)) <= 1)%nat) /\
  (forall m u1 z1 s1 t1 u2 z2 s2 t2,
     bufferStrategies
       (snd (AllocateBuffer (snd (AllocateBuffer m u1 z1 s1 t1)) u2 z2 s2 t2))
     = bufferStrategies (snd (AllocateBuffer m u2 z2 s2 t2)) /\
     bufferStrategies
       (snd (AllocateBuffer (snd (AllocateBuffer m u1 z1 s1 t1)) u2 z2 s2 t2))
       !! fst (AllocateBuffer m u1 z1 s1 t1) = Some s2) /\
  (forall m i1 s1 t1 i2 s2 t2,
     imageStrategies
       (snd (AllocateImage (snd (AllocateImage m i1 s1 t1)) i2 s2 t2))
     = imageStrategies (snd (AllocateImage m i2 s2 t2)) /\
     imageStrategies
       (snd (AllocateImage (snd (AllocateImage m i1 s1 t1)) i2 s2 t2))
       !! fst (AllocateImage m i1 s1 t1) = Some s2).
Proof.
  split; [reflexivity|]. split; [reflexivity|]. split; [|split].
  - intros ops.
    destruct (only_null_keys_run ops _ only_null_keys_new) as [Hb Hi].
    destruct (null_keys_size _ Hb) as [Hbd Hbs].
    destruct (null_keys_size _ Hi) as [Hid His]. auto.
  - intros. rewrite !buffers_AllocateBuffer.
    split; [apply insert_insert_eq|apply lookup_insert_eq].
  - intros. rewrite !images_AllocateImage.
    split; [apply insert_insert_eq|apply lookup_insert_eq].
Qed.

(** * Further properties of the frame distributor *)

Lemma strip_len_last_mod extent n :
  0 <= extent < 2 ^ 32 -> 1 <= n -> n < 2 ^ 32 ->
  strip_len extent n (n - 1) = extent / n + extent mod n.
Proof.
  intros He Hn Hn32. rewrite strip_len_last by lia.
  pose proof (Z.div_mod extent n ltac:(lia)). lia.
Qed.

Lemma strip_len_any extent n k :
  0 <= extent < 2 ^ 32 -> 1 <= n -> n < 2 ^ 32 -> 0 <= k < n ->
  strip_len extent n k = if k =? n - 1 then extent / n + extent mod n else extent / n.
Proof.
  intros He Hn Hn32 Hk. destruct (Z.eqb_spec k (n - 1)) as [->|Hne].
  - apply strip_len_last_mod; lia.
  - apply strip_len_inner; lia.
Qed.

(** In a list whose [k]-th region carries ordinal [base + k], searching for
    an ordinal is indexing. *)
Lemma find_by_ordinal rs : forall base,
  (forall (k : nat) r, rs !! k = Some r -> gpuIndex r = base + Z.of_nat k) ->
  forall idx, base <= idx ->
  List.find (fun region => gpuIndex region =? idx) rs = rs !! Z.to_nat (idx - base).
Proof.
  induction rs as [|r rs IH]; intros base Hord idx Hidx; [reflexivity|].
  pose proof (Hord 0%nat r eq_refl) as Hr. cbn [List.find].
  destruct (Z.eqb_spec (gpuIndex r) idx) as [Heq|Hne].
  - replace (idx - base) with 0 by lia. reflexivity.
  - rewrite (IH (base + 1)); [|intros k r' Hk; rewrite (Hord (S k) r' Hk); lia|lia].
    replace (Z.to_nat (idx - base)) with (S (Z.to_nat (idx - (base + 1)))) by lia.
    reflexivity.
Qed.

Lemma horizontal_ordinals d n w (k : nat) r :
  (horizontal_region d n w <$> seqZ 0 n) !! k = Some r -> gpuIndex r = Z.of_nat k.
Proof. intros [-> _]%lookup_fmap_seqZ. reflexivity. Qed.

Lemma vertical_ordinals d n w (k : nat) r :
  (vertical_region d n w <$> seqZ 0 n) !! k = Some r -> gpuIndex r = Z.of_nat k.
Proof. intros [-> _]%lookup_fmap_seqZ. reflexivity. Qed.

Lemma quadrant_ordinals d (m k : nat) r :
  take m (quadrant_step d (frameWidth d / 2) (frameHeight d / 2) FrameRegion_zero
            <$> [0; 1; 2; 3]) !! k = Some r ->
  gpuIndex r = Z.of_nat k.
Proof.
  intros [Hk _]%lookup_take_Some.
  destruct k as [|[|[|[|k]]]]; simpl in Hk; try discriminate;
    injection Hk as <-; reflexivity.
Qed.

(** X1: with at least one active device, [GetRegionForGpu(i)] is the
    [i]-th region of the computed partition, whose regions carry the
    ordinals 0, 1, 2, ... in order; the partition has [count] regions
    ([min(4, count)] in quadrant mode), and an ordinal at or past that
    number gets the all-zero region. *)
Theorem GetRegionForGpu_by_ordinal
    (mgr : VkMultiGpuManager) (d : VkFrameDistributor) (idx : Z) :
  1 <= GetActiveGpuCount mgr -> 0 <= idx ->
  exists rs,
    ComputeFrameRegions mgr d = Returns rs /\
    length rs = Z.to_nat (match distributionMode d with
                          | SPLIT_FRAME_QUADRANTS => Z.min 4 (GetActiveGpuCount mgr)
                          | _ => GetActiveGpuCount mgr
                          end) /\
    (forall (k : nat) r, rs !! k = Some r -> gpuIndex r = Z.of_nat k) /\
    GetRegionForGpu mgr d idx = Returns (default FrameRegion_zero (rs !! Z.to_nat idx)) /\
    (Z.of_nat (length rs) <= idx -> GetRegionForGpu mgr d idx = Returns FrameRegion_zero).
Proof.
  intros Hn Hidx. pose proof (GetActiveGpuCount_range mgr) as Hrange.
  assert (Hgen : forall rs len,
            ComputeFrameRegions mgr d = Returns rs ->
            length rs = len ->
            (forall (k : nat) r, rs !! k = Some r -> gpuIndex r = Z.of_nat k) ->
            exists rs,
              ComputeFrameRegions mgr d = Returns rs /\ length rs = len /\
              (forall (k : nat) r, rs !! k = Some r -> gpuIndex r = Z.of_nat k) /\
              GetRegionForGpu mgr d idx
                = Returns (default FrameRegion_zero (rs !! Z.to_nat idx)) /\
              (Z.of_nat (length rs) <= idx ->
               GetRegionForGpu mgr d idx = Returns FrameRegion_zero)).
  { intros rs len Hrs Hlen Hord. exists rs.
    assert (Hget : GetRegionForGpu mgr d idx
                   = Returns (default FrameRegion_zero (rs !! Z.to_nat idx))).
    { unfold GetRegionForGpu. rewrite Hrs.
      rewrite (find_by_ordinal rs 0) by (auto || lia).
      rewrite Z.sub_0_r. reflexivity. }
    repeat split; auto.
    intros Hpast. rewrite Hget, lookup_ge_None_2 by lia. reflexivity. }
  unfold ComputeFrameRegions in *.
  destruct (distributionMode d).
  - eapply Hgen; [apply ComputeHorizontalSplit_returns, Hn| |apply horizontal_ordinals].
    by rewrite length_fmap, length_seqZ.
  - eapply Hgen; [apply ComputeVerticalSplit_returns, Hn| |apply vertical_ordinals].
    by rewrite length_fmap, length_seqZ.
  - eapply Hgen; [apply ComputeQuadrantSplit_returns| |apply quadrant_ordinals].
    rewrite length_take, length_fmap, std_min_spec. cbn [length]. lia.
  - eapply Hgen; [apply ComputeHorizontalSplit_returns, Hn| |apply horizontal_ordinals].
    by rewrite length_fmap, length_seqZ.
  - eapply Hgen; [apply ComputeHorizontalSplit_returns, Hn| |apply horizontal_ordinals].
    by rewrite length_fmap, length_seqZ.
Qed.

Lemma GetRegionForGpu_by_ordinal_witness :
  1 <= GetActiveGpuCount (registry_of 3) /\
  GetRegionForGpu (registry_of 3) (distributor_of SPLIT_FRAME_VERTICAL 100 90) 3
    = Returns FrameRegion_zero.
Proof.
  assert (H1 : 1 <= GetActiveGpuCount (registry_of 3)) by (vm_compute; discriminate).
  split; [exact H1|].
  destruct (GetRegionForGpu_by_ordinal (registry_of 3)
              (distributor_of SPLIT_FRAME_VERTICAL 100 90) 3 H1 ltac:(lia))
    as (rs & _ & Hlen & _ & _ & Hpast).
  apply Hpast. rewrite Hlen. vm_compute. discriminate.
Defined.

(** X2: in vertical mode with [count >= 1] active devices there are [count]
    regions, each as wide as the frame; region [i] starts at row
    [i * floor(h/count)] and is [floor(h/count)] rows high, except the last,
    which takes the [h mod count] remaining rows as well; a row is in some
    region exactly when it is in [[0, h)]. *)
Theorem vertical_split_heights (mgr : VkMultiGpuManager) (d : VkFrameDistributor) :
  1 <= GetActiveGpuCount mgr ->
  is_u32 (frameHeight d) ->
  exists rs,
    ComputeVerticalSplit mgr d = Returns rs /\
    length rs = Z.to_nat (GetActiveGpuCount mgr) /\
    (forall (i : nat) r, rs !! i = Some r ->
       offsetX r = 0 /\ width r = frameWidth d /\
       offsetY r = Z.of_nat i * (frameHeight d / GetActiveGpuCount mgr) /\
       height r = if Z.of_nat i =? GetActiveGpuCount mgr - 1
                  then frameHeight d / GetActiveGpuCount mgr
                       + frameHeight d mod GetActiveGpuCount mgr
                  else frameHeight d / GetActiveGpuCount mgr) /\
    (forall y, 0 <= y < frameHeight d <->
       exists r, r ∈ rs /\ offsetY r <= y < offsetY r + height r).
Proof.
  intros Hn Hh. pose proof (GetActiveGpuCount_range mgr) as Hrange.
  pose proof Hh as Hh'%is_u32_range.
  set (n := GetActiveGpuCount mgr) in *.
  eexists. split; [apply ComputeVerticalSplit_returns, Hn|]. fold n.
  split; [by rewrite length_fmap, length_seqZ|]. split.
  - intros i r [-> Hi]%lookup_fmap_seqZ.
    split; [reflexivity|]. split; [reflexivity|]. split.
    + apply (strip_lo_exact (frameHeight d) n); lia.
    + apply (strip_len_any (frameHeight d) n); lia.
  - intros y. split.
    + intros Hy.
      destruct (strip_no_gap (frameHeight d) n Hh' Hn ltac:(lia) y Hy) as (k & Hk & Hin).
      exists (vertical_region d n (frameHeight d / n) k).
      split; [apply elem_of_fmap_seqZ; eauto|exact Hin].
    + intros (r & (k & Hk & ->)%elem_of_fmap_seqZ & Hin).
      apply (strip_inside (frameHeight d) n Hh' Hn ltac:(lia) k); auto.
Qed.

Lemma vertical_split_heights_witness :
  1 <= GetActiveGpuCount (registry_of 3) /\
  is_u32 1081 /\
  exists rs,
    ComputeVerticalSplit (registry_of 3) (distributor_of SPLIT_FRAME_VERTICAL 1920 1081)
      = Returns rs /\
    length rs = 3%nat.
Proof.
  assert (H1 : 1 <= GetActiveGpuCount (registry_of 3)) by (vm_compute; discriminate).
  assert (H2 : is_u32 1081) by (vm_compute; split; discriminate).
  split; [exact H1|]. split; [exact H2|].
  destruct (vertical_split_heights (registry_of 3)
              (distributor_of SPLIT_FRAME_VERTICAL 1920 1081) H1 H2)
    as (rs & Hrs & Hlen & _).
  exists rs. split; [exact Hrs|]. rewrite Hlen. vm_compute. reflexivity.
Defined.

(** X3: in horizontal mode no region is narrower than [floor(w/count)], and
    the last one is wider than that by exactly [w mod count], which is less
    than [count]. *)
Theorem horizontal_last_region_remainder
    (mgr : VkMultiGpuManager) (d : VkFrameDistributor) :
  1 <= GetActiveGpuCount mgr ->
  is_u32 (frameWidth d) ->
  exists rs,
    ComputeHorizontalSplit mgr d = Returns rs /\
    (forall r, r ∈ rs -> frameWidth d / GetActiveGpuCount mgr <= width r) /\
    (exists r, last rs = Some r /\
       width r = frameWidth d / GetActiveGpuCount mgr
                 + frameWidth d mod GetActiveGpuCount mgr /\
       0 <= frameWidth d mod GetActiveGpuCount mgr < GetActiveGpuCount mgr).
Proof.
  intros Hn Hw. pose proof (GetActiveGpuCount_range mgr) as Hrange.
  pose proof Hw as Hw'%is_u32_range.
  set (n := GetActiveGpuCount mgr) in *.
  pose proof (Z.mod_pos_bound (frameWidth d) n ltac:(lia)) as Hmod.
  eexists. split; [apply ComputeHorizontalSplit_returns, Hn|]. fold n. split.
  - intros r (k & Hk & ->)%elem_of_fmap_seqZ.
    change (frameWidth d / n <= strip_len (frameWidth d) n k).
    rewrite strip_len_any by lia. destruct (k =? n - 1); lia.
  - exists (horizontal_region d n (frameWidth d / n) (n - 1)). split; [|split].
    + rewrite last_lookup, length_fmap, length_seqZ.
      apply lookup_fmap_seqZ. split; [f_equal; lia|lia].
    + apply (strip_len_last_mod (frameWidth d) n); lia.
    + exact Hmod.
Qed.

Lemma horizontal_last_region_remainder_witness :
  1 <= GetActiveGpuCount (registry_of 3) /\
  is_u32 1921 /\
  exists rs,
    ComputeHorizontalSplit (registry_of 3) (distributor_of SPLIT_FRAME_HORIZONTAL 1921 1080)
      = Returns rs /\
    exists r, last rs = Some r /\ width r = 641.
Proof.
  assert (H1 : 1 <= GetActiveGpuCount (registry_of 3)) by (vm_compute; discriminate).
  assert (H2 : is_u32 1921) by (vm_compute; split; discriminate).
  split; [exact H1|]. split; [exact H2|].
  destruct (horizontal_last_region_remainder (registry_of 3)
              (distributor_of SPLIT_FRAME_HORIZONTAL 1921 1080) H1 H2)
    as (rs & Hrs & _ & r & Hlast & Hwidth & _).
  exists rs. split; [exact Hrs|]. exists r. split; [exact Hlast|].
  rewrite Hwidth. vm_compute. reflexivity.
Defined.

(** X4: when the frame has fewer columns than there are active devices, the
    horizontal split gives every device but the last an empty region at
    column 0, and the last device the whole frame; likewise for rows in the
    vertical split. *)
Theorem narrow_frame_goes_to_last_device
    (mgr : VkMultiGpuManager) (d : VkFrameDistributor) :
  1 <= GetActiveGpuCount mgr ->
  is_u32 (frameWidth d) -> is_u32 (frameHeight d) ->
  (frameWidth d < GetActiveGpuCount mgr ->
   exists rs,
     ComputeHorizontalSplit mgr d = Returns rs /\
     forall (i : nat) r, rs !! i = Some r ->
       offsetX r = 0 /\ offsetY r = 0 /\ height r = frameHeight d /\
       width r = if Z.of_nat i =? GetActiveGpuCount mgr - 1 then frameWidth d else 0) /\
  (frameHeight d < GetActiveGpuCount mgr ->
   exists rs,
     ComputeVerticalSplit mgr d = Returns rs /\
     forall (i : nat) r, rs !! i = Some r ->
       offsetX r = 0 /\ offsetY r = 0 /\ width r = frameWidth d /\
       height r = if Z.of_nat i =? GetActiveGpuCount mgr - 1 then frameHeight d else 0).
Proof.
  intros Hn Hw%is_u32_range Hh%is_u32_range.
  pose proof (GetActiveGpuCount_range mgr) as Hrange.
  set (n := GetActiveGpuCount mgr) in *.
  split; intros Hnarrow.
  - eexists. split; [apply ComputeHorizontalSplit_returns, Hn|]. fold n.
    intros i r [-> Hi]%lookup_fmap_seqZ.
    assert (Hq : frameWidth d / n = 0) by (apply Z.div_small; lia).
    assert (Hm : frameWidth d mod n = frameWidth d) by (apply Z.mod_small; lia).
    split; [|split; [reflexivity|split; [reflexivity|]]].
    + change (strip_lo (frameWidth d) n (Z.of_nat i) = 0).
      rewrite strip_lo_exact by lia. rewrite Hq. lia.
    + change (strip_len (frameWidth d) n (Z.of_nat i)
              = if Z.of_nat i =? n - 1 then frameWidth d else 0).
      rewrite strip_len_any by lia. rewrite Hq, Hm. reflexivity.
  - eexists. split; [apply ComputeVerticalSplit_returns, Hn|]. fold n.
    intros i r [-> Hi]%lookup_fmap_seqZ.
    assert (Hq : frameHeight d / n = 0) by (apply Z.div_small; lia).
    assert (Hm : frameHeight d mod n = frameHeight d) by (apply Z.mod_small; lia).
    split; [reflexivity|split; [|split; [reflexivity|]]].
    + change (strip_lo (frameHeight d) n (Z.of_nat i) = 0).
      rewrite strip_lo_exact by lia. rewrite Hq. lia.
    + change (strip_len (frameHeight d) n (Z.of_nat i)
              = if Z.of_nat i =? n - 1 then frameHeight d else 0).
      rewrite strip_len_any by lia. rewrite Hq, Hm. reflexivity.
Qed.

Lemma narrow_frame_goes_to_last_device_witness :
  1 <= GetActiveGpuCount (registry_of 3) /\
  is_u32 2 /\ 2 < GetActiveGpuCount (registry_of 3) /\
  exists rs,
    ComputeHorizontalSplit (registry_of 3) (distributor_of SPLIT_FRAME_HORIZONTAL 2 2)
      = Returns rs /\
    width <$> rs = [0; 0; 2].
Proof.
  assert (H1 : 1 <= GetActiveGpuCount (registry_of 3)) by (vm_compute; discriminate).
  assert (H2 : is_u32 2) by (vm_compute; split; discriminate).
  assert (H3 : 2 < GetActiveGpuCount (registry_of 3)) by (vm_compute; reflexivity).
  split; [exact H1|]. split; [exact H2|]. split; [exact H3|].
  destruct (narrow_frame_goes_to_last_device (registry_of 3)
              (distributor_of SPLIT_FRAME_HORIZONTAL 2 2) H1 H2 H2) as [Hhor _].
  destruct (Hhor H3) as (rs & Hrs & _).
  exists rs. split; [exact Hrs|].
  vm_compute in Hrs. injection Hrs as <-. reflexivity.
Defined.

(** X5: with four or more active devices and any frame size, the quadrant
    split returns exactly four regions: top-left, top-right, bottom-left and
    bottom-right, for ordinals 0 to 3, cut at column [floor(w/2)] and row
    [floor(h/2)]; an odd column or row goes to the right or bottom
    quadrant. *)
Theorem quadrant_layout (mgr : VkMultiGpuManager) (d : VkFrameDistributor) :
  4 <= GetActiveGpuCount mgr ->
  is_u32 (frameWidth d) -> is_u32 (frameHeight d) ->
  ComputeQuadrantSplit mgr d =
  Returns
    [ {| offsetX := 0; offsetY := 0;
         width := frameWidth d / 2; height := frameHeight d / 2; gpuIndex := 0 |};
      {| offsetX := frameWidth d / 2; offsetY := 0;
         width := frameWidth d / 2 + frameWidth d mod 2;
         height := frameHeight d / 2; gpuIndex := 1 |};
      {| offsetX := 0; offsetY := frameHeight d / 2;
         width := frameWidth d / 2;
         height := frameHeight d / 2 + frameHeight d mod 2; gpuIndex := 2 |};
      {| offsetX := frameWidth d / 2; offsetY := frameHeight d / 2;
         width := frameWidth d / 2 + frameWidth d mod 2;
         height := frameHeight d / 2 + frameHeight d mod 2; gpuIndex := 3 |} ].
Proof.
  intros H4 Hw Hh. rewrite ComputeQuadrantSplit_returns.
  replace (std_min 4 (GetActiveGpuCount mgr)) with 4 by (rewrite std_min_spec; lia).
  destruct (half_bounds _ Hw) as [_ Hww]. destruct (half_bounds _ Hh) as [_ Hhw].
  assert (Hwm : frameWidth d - frameWidth d / 2 = frameWidth d / 2 + frameWidth d mod 2)
    by (pose proof (Z.div_mod (frameWidth d) 2 ltac:(lia)); lia).
  assert (Hhm : frameHeight d - frameHeight d / 2
                = frameHeight d / 2 + frameHeight d mod 2)
    by (pose proof (Z.div_mod (frameHeight d) 2 ltac:(lia)); lia).
  cbn [take Z.to_nat Pos.to_nat Pos.iter_op Nat.add fmap list_fmap].
  unfold quadrant_step. cbn [Z.eqb Pos.eqb].
  rewrite Hww, Hhw, Hwm, Hhm. reflexivity.
Qed.

Lemma quadrant_layout_witness :
  4 <= GetActiveGpuCount (registry_of 5) /\
  is_u32 101 /\
  width <$> match ComputeQuadrantSplit (registry_of 5)
                    (distributor_of SPLIT_FRAME_QUADRANTS 101 101) with
            | Returns rs => rs
            | DivisionByZero => []
            end = [50; 51; 50; 51].
Proof.
  assert (H4 : 4 <= GetActiveGpuCount (registry_of 5)) by (vm_compute; discriminate).
  assert (H2 : is_u32 101) by (vm_compute; split; discriminate).
  split; [exact H4|]. split; [exact H2|].
  rewrite (quadrant_layout (registry_of 5)
             (distributor_of SPLIT_FRAME_QUADRANTS 101 101) H4 H2 H2).
  reflexivity.
Defined.

(** * Further properties of the registry *)

Section RegistryFacts.
Context `{Vulkan}.

Lemma select_loop_spec fams :
  Z.of_nat (length fams) <= UINT32_MAX ->
  last_with VK_QUEUE_GRAPHICS_BIT fams
    (fst (fst (select_loop 0 fams UINT32_MAX UINT32_MAX UINT32_MAX))) /\
  first_with VK_QUEUE_COMPUTE_BIT [] fams
    (snd (fst (select_loop 0 fams UINT32_MAX UINT32_MAX UINT32_MAX))) /\
  first_with VK_QUEUE_TRANSFER_BIT [] fams
    (snd (select_loop 0 fams UINT32_MAX UINT32_MAX UINT32_MAX)).
Proof.
  intros Hlen.
  pose proof (select_loop_graphics fams 0 UINT32_MAX UINT32_MAX UINT32_MAX
                ltac:(lia) ltac:(lia)) as Hg.
  destruct (select_loop_compute fams 0 UINT32_MAX UINT32_MAX UINT32_MAX
              ltac:(lia) ltac:(lia)) as [_ Hc].
  destruct (select_loop_transfer fams 0 UINT32_MAX UINT32_MAX UINT32_MAX
              ltac:(lia) ltac:(lia)) as [_ Ht].
  specialize (Hc eq_refl). specialize (Ht eq_refl).
  destruct (select_loop 0 fams UINT32_MAX UINT32_MAX UINT32_MAX) as [[gi ci] ti].
  cbn [fst snd] in *. split; [|split].
  - destruct Hg as [[-> Hnone]|(k & qf & -> & Hk & Hf & Hlast)].
    + left. auto.
    + right. exists k, qf. rewrite Z.add_0_l. auto.
  - destruct Hc as [[-> Hnone]|(k & qf & -> & Hk & Hf & Hfirst)].
    + left. split; [reflexivity|]. intros k qf Hk [Hf _].
      rewrite (Hnone k qf Hk) in Hf. discriminate.
    + right. exists k, qf. rewrite Z.add_0_l.
      split; [reflexivity|]. split; [exact Hk|].
      split; [split; [exact Hf|apply not_elem_of_nil]|].
      intros k' qf' Hlt Hk' [Hf' _]. rewrite (Hfirst k' qf' Hlt Hk') in Hf'. discriminate.
  - destruct Ht as [[-> Hnone]|(k & qf & -> & Hk & Hf & Hfirst)].
    + left. split; [reflexivity|]. intros k qf Hk [Hf _].
      rewrite (Hnone k qf Hk) in Hf. discriminate.
    + right. exists k, qf. rewrite Z.add_0_l.
      split; [reflexivity|]. split; [exact Hk|].
      split; [split; [exact Hf|apply not_elem_of_nil]|].
      intros k' qf' Hlt Hk' [Hf' _]. rewrite (Hfirst k' qf' Hlt Hk') in Hf'. discriminate.
Qed.

(** A candidate that is pushed carries its loop index and its physical
    device, and satisfies [gpu_admitted]. *)
Lemma bring_up_pushed i device gpu calls :
  Z.of_nat (length (vkGetPhysicalDeviceQueueFamilyProperties device)) <= UINT32_MAX ->
  bring_up i device = (Some gpu, calls) ->
  deviceId gpu = i /\ physicalDevice gpu = device /\ gpu_admitted gpu.
Proof.
  intros Hlen. unfold bring_up, SelectQueueFamilyIndices.
  destruct (select_loop_spec _ Hlen) as (Hg & Hc & Ht).
  destruct (select_loop 0 (vkGetPhysicalDeviceQueueFamilyProperties device)
              UINT32_MAX UINT32_MAX UINT32_MAX) as [[gi ci] ti].
  cbn [fst snd] in Hg, Hc, Ht.
  destruct (Z.eqb_spec gi UINT32_MAX) as [|Hres]; cbn [negb]; [discriminate|].
  unfold CreateLogicalDevice.
  destruct (vkCreateDevice device _) as [dev|] eqn:Hdev; [|discriminate].
  destruct (vkCreateCommandPool dev _ _) as [pool|] eqn:Hpool; [|discriminate].
  intros [= <- <-]. cbn in Hdev, Hpool.
  split; [reflexivity|]. split; [reflexivity|].
  unfold gpu_admitted. cbn.
  repeat split; try assumption; try reflexivity.
Qed.

Lemma init_loop_devices cands : forall i mgr,
  gpuDevices (init_loop i cands mgr) = gpuDevices mgr ++ brought_up i cands.
Proof.
  induction cands as [|device cands IH]; intros i mgr; cbn [init_loop brought_up].
  - by rewrite app_nil_r.
  - destruct (bring_up i device) as [pushed calls]. rewrite IH.
    cbn [gpuDevices fst]. by rewrite <- app_assoc.
Qed.

(** The records a call of [InitializeMultiGpu] adds. *)
Lemma InitializeMultiGpu_devices mgr instance desired :
  gpuDevices (snd (InitializeMultiGpu mgr instance desired))
  = gpuDevices mgr ++
    (if wrap32 (Z.of_nat (length (vkEnumeratePhysicalDevices instance))) =? 0 then []
     else brought_up 0
            (take (Z.to_nat
                     (std_min
                        (wrap32 (Z.of_nat (length (vkEnumeratePhysicalDevices instance))))
                        desired))
               (vkEnumeratePhysicalDevices instance))).
Proof.
  unfold InitializeMultiGpu.
  destruct (_ =? 0); cbn [snd gpuDevices]; [by rewrite app_nil_r|].
  by rewrite init_loop_devices.
Qed.

Lemma brought_up_admitted cands : forall i gpu,
  family_counts_u32 -> gpu ∈ brought_up i cands -> gpu_admitted gpu.
Proof.
  induction cands as [|device cands IH]; intros i gpu Hfam; cbn [brought_up].
  - intros Hin. by apply elem_of_nil in Hin.
  - intros [Hin|Hin]%elem_of_app; [|by apply (IH _ _ Hfam Hin)].
    destruct (bring_up i device) as [[gpu0|] calls] eqn:Hbring; cbn in Hin.
    + apply list_elem_of_singleton in Hin as ->.
      by apply (bring_up_pushed i device gpu0 calls (Hfam device)).
    + by apply elem_of_nil in Hin.
Qed.

Lemma brought_up_ids cands : forall i,
  family_counts_u32 ->
  0 <= i -> i + Z.of_nat (length cands) <= UINT32_MAX ->
  forall (p : nat) gpu, brought_up i cands !! p = Some gpu ->
  exists k : nat,
    (p <= k)%nat /\ cands !! k = Some (physicalDevice gpu) /\
    deviceId gpu = i + Z.of_nat k.
Proof.
  induction cands as [|device cands IH]; intros i Hfam Hi Hlen p gpu;
    cbn [brought_up length] in *.
  - intros Hp. by rewrite lookup_nil in Hp.
  - rewrite wrap32_succ by lia.
    destruct (bring_up i device) as [[gpu0|] calls] eqn:Hbring; cbn [fst option_list app].
    + destruct (bring_up_pushed i device gpu0 calls (Hfam device) Hbring)
        as (Hid & Hpd & _).
      destruct p as [|p]; cbn [lookup list_lookup].
      * intros [= <-]. exists 0%nat. rewrite Hpd, Hid. split; [lia|].
        split; [reflexivity|lia].
      * intros Hp.
        destruct (IH (i + 1) Hfam ltac:(lia) ltac:(lia) p gpu Hp) as (k & Hpk & Hk & Hidk).
        exists (S k). split; [lia|]. split; [exact Hk|lia].
    + intros Hp.
      destruct (IH (i + 1) Hfam ltac:(lia) ltac:(lia) p gpu Hp) as (k & Hpk & Hk & Hidk).
      exists (S k). split; [lia|]. split; [exact Hk|lia].
Qed.

Lemma brought_up_increasing cands : forall i,
  family_counts_u32 ->
  0 <= i -> i + Z.of_nat (length cands) <= UINT32_MAX ->
  forall (p q : nat) g1 g2, (p < q)%nat ->
  brought_up i cands !! p = Some g1 -> brought_up i cands !! q = Some g2 ->
  deviceId g1 < deviceId g2.
Proof.
  induction cands as [|device cands IH]; intros i Hfam Hi Hlen p q g1 g2 Hpq;
    cbn [brought_up length] in *.
  - intros Hp. by rewrite lookup_nil in Hp.
  - rewrite wrap32_succ by lia.
    destruct (bring_up i device) as [[gpu0|] calls] eqn:Hbring; cbn [fst option_list app].
    + destruct (bring_up_pushed i device gpu0 calls (Hfam device) Hbring) as (Hid & _).
      destruct q as [|q]; [lia|]. destruct p as [|p]; cbn [lookup list_lookup].
      * intros [= <-] Hq.
        destruct (brought_up_ids cands (i + 1) Hfam ltac:(lia) ltac:(lia) q g2 Hq)
          as (k & _ & _ & Hidk). lia.
      * apply (IH (i + 1) Hfam ltac:(lia) ltac:(lia)). lia.
    + apply (IH (i + 1) Hfam ltac:(lia) ltac:(lia)). exact Hpq.
Qed.

End RegistryFacts.

Section RegistryClaims.
Context `{Vulkan}.

(** X6: [InitializeMultiGpu] admits only devices it has fully brought up.
    If every record of the registry has a resolved graphics family, family
    indices that are what the selection finds on its physical device, and
    the logical device, graphics queue and command pool the driver returned
    for it, then so has every record after the call; a fresh registry has
    no record, so this holds after any number of calls. *)
Theorem InitializeMultiGpu_admits_only_brought_up
    (mgr : VkMultiGpuManager) (instance desiredGpuCount : Z) :
  family_counts_u32 ->
  Forall gpu_admitted (gpuDevices mgr) ->
  Forall gpu_admitted (gpuDevices (snd (InitializeMultiGpu mgr instance desiredGpuCount))).
Proof.
  intros Hfam Hold. rewrite InitializeMultiGpu_devices.
  apply Forall_app. split; [exact Hold|].
  destruct (_ =? 0); [constructor|].
  apply Forall_forall. intros gpu Hin. by apply (brought_up_admitted _ _ _ Hfam Hin).
Qed.

(** X7: on a fresh registry, the record at position [p] of the device table
    has a [deviceId] that is its physical device's position in the driver's
    enumeration, which is at least [p] and below [min(desired, available)];
    [deviceId]s increase strictly along the table.  (A skipped candidate
    makes later positions and [deviceId]s differ.) *)
Theorem registered_device_ids (instance desiredGpuCount : Z) :
  family_counts_u32 ->
  is_u32 desiredGpuCount ->
  Z.of_nat (length (vkEnumeratePhysicalDevices instance)) <= UINT32_MAX ->
  (forall (p : nat) gpu,
     gpuDevices (snd (InitializeMultiGpu VkMultiGpuManager_new instance desiredGpuCount))
       !! p = Some gpu ->
     Z.of_nat p <= deviceId gpu
       < Z.min desiredGpuCount (Z.of_nat (length (vkEnumeratePhysicalDevices instance))) /\
     vkEnumeratePhysicalDevices instance !! Z.to_nat (deviceId gpu)
       = Some (physicalDevice gpu)) /\
  (forall (p q : nat) g1 g2, (p < q)%nat ->
     gpuDevices (snd (InitializeMultiGpu VkMultiGpuManager_new instance desiredGpuCount))
       !! p = Some g1 ->
     gpuDevices (snd (InitializeMultiGpu VkMultiGpuManager_new instance desiredGpuCount))
       !! q = Some g2 ->
     deviceId g1 < deviceId g2).
Proof.
  intros Hfam Hdes Havail. unfold is_u32 in Hdes.
  assert (Hmax : UINT32_MAX = 2 ^ 32 - 1) by reflexivity.
  rewrite InitializeMultiGpu_devices. cbn [gpuDevices VkMultiGpuManager_new app].
  set (devices := vkEnumeratePhysicalDevices instance) in *.
  rewrite (wrap32_small (Z.of_nat (length devices))) by lia.
  rewrite std_min_spec.
  destruct (Z.eqb_spec (Z.of_nat (length devices)) 0) as [Hzero|Hnz].
  { split; intros p; intros; by rewrite lookup_nil in *. }
  set (n := Z.min (Z.of_nat (length devices)) desiredGpuCount).
  assert (Hn : 0 <= n <= UINT32_MAX /\ n <= desiredGpuCount
               /\ n <= Z.of_nat (length devices)) by (unfold n; lia).
  assert (Hcl : length (take (Z.to_nat n) devices) = Z.to_nat n)
    by (rewrite length_take; lia).
  split.
  - intros p gpu Hp.
    destruct (brought_up_ids (take (Z.to_nat n) devices) 0 Hfam ltac:(lia) ltac:(lia)
                p gpu Hp)
      as (k & Hpk & Hk & Hid).
    apply lookup_take_Some in Hk as [Hk Hkn].
    split; [lia|]. rewrite Hid, Z.add_0_l, Nat2Z.id. exact Hk.
  - intros p q g1 g2 Hpq Hp Hq.
    exact (brought_up_increasing (take (Z.to_nat n) devices) 0 Hfam ltac:(lia) ltac:(lia)
             p q g1 g2 Hpq Hp Hq).
Qed.

(** X8: [InitializeMultiGpu] never clears the device table.  Called on a
    registry that already holds records, it keeps them and appends what the
    same call would register on a fresh registry; and it then reports
    success whenever the driver enumerates a device, even if it registered
    nothing new. *)
Theorem InitializeMultiGpu_appends
    (mgr : VkMultiGpuManager) (instance desiredGpuCount : Z) :
  gpuDevices (snd (InitializeMultiGpu mgr instance desiredGpuCount))
  = gpuDevices mgr
    ++ gpuDevices (snd (InitializeMultiGpu VkMultiGpuManager_new instance desiredGpuCount))
  /\
  (Z.of_nat (length (vkEnumeratePhysicalDevices instance)) <= UINT32_MAX ->
   (fst (InitializeMultiGpu mgr instance desiredGpuCount) = true <->
    fst (InitializeMultiGpu VkMultiGpuManager_new instance desiredGpuCount) = true
    \/ (gpuDevices mgr <> [] /\ vkEnumeratePhysicalDevices instance <> []))).
Proof.
  split.
  - rewrite !InitializeMultiGpu_devices. reflexivity.
  - intros Havail.
    assert (Hmax : UINT32_MAX = 2 ^ 32 - 1) by reflexivity.
    pose proof (InitializeMultiGpu_devices mgr instance desiredGpuCount) as Hd.
    pose proof (InitializeMultiGpu_devices VkMultiGpuManager_new instance desiredGpuCount)
      as Hd0.
    unfold InitializeMultiGpu in *.
    rewrite (wrap32_small (Z.of_nat (length (vkEnumeratePhysicalDevices instance))))
      in * by lia.
    destruct (Z.eqb_spec (Z.of_nat (length (vkEnumeratePhysicalDevices instance))) 0)
      as [Hzero|Hnz]; cbn [fst snd] in *.
    + split; [discriminate|]. intros [|[_ Hne]]; [discriminate|].
      destruct (vkEnumeratePhysicalDevices instance); [congruence|simpl in Hzero; lia].
    + assert (Hne : vkEnumeratePhysicalDevices instance <> [])
        by (intros E; rewrite E in Hnz; simpl in Hnz; lia).
      rewrite Hd, Hd0. cbn [gpuDevices VkMultiGpuManager_new app].
      rewrite !negb_true_iff, !bool_decide_eq_false.
      destruct (gpuDevices mgr) as [|g gs]; cbn [app].
      * split; [auto|]. intros [|[Hcontra _]]; [assumption|congruence].
      * split; [|discriminate]. intros _. right. split; [discriminate|exact Hne].
Qed.




(** X10: [CreateLogicalDevice] asks for one queue per requested family and
    never names a family twice; it requests the graphics family, and the
    compute family when that is resolved, but never a transfer family that
    is distinct from both, although on success it still fetches the transfer
    queue from that family. *)
Theorem CreateLogicalDevice_queue_requests (physDev : Z) (gpuInfo : VkGpuDevice) :
  NoDup (queueFamilyIndex <$> queue_create_infos gpuInfo) /\
  Forall (fun info => queueCount info = 1) (queue_create_infos gpuInfo) /\
  (forall family,
     family ∈ (queueFamilyIndex <$> queue_create_infos gpuInfo) <->
     family <> UINT32_MAX /\
     (family = graphicsQueueFamilyIndex gpuInfo \/
      family = computeQueueFamilyIndex gpuInfo)) /\
  (forall gpu calls,
     CreateLogicalDevice physDev gpuInfo = (true, gpu, calls) ->
     transferQueueFamilyIndex gpuInfo <> UINT32_MAX ->
     transferQueue gpu
       = vkGetDeviceQueue (logicalDevice gpu) (transferQueueFamilyIndex gpuInfo) 0).
Proof.
  unfold queue_create_infos.
  destruct (Z.eqb_spec (graphicsQueueFamilyIndex gpuInfo) UINT32_MAX) as [Hg|Hg];
    destruct (Z.eqb_spec (computeQueueFamilyIndex gpuInfo) UINT32_MAX) as [Hc|Hc];
    destruct (Z.eqb_spec (computeQueueFamilyIndex gpuInfo)
                (graphicsQueueFamilyIndex gpuInfo)) as [Hcg|Hcg];
    cbn [negb andb app fmap list_fmap queueFamilyIndex].
  all: split;
    [rewrite ?NoDup_cons, ?elem_of_cons, ?elem_of_nil;
     repeat split; try apply NoDup_nil_2; intuition congruence|].
  all: split; [repeat constructor|].
  all: split;
    [intros family; rewrite ?elem_of_cons, ?elem_of_nil; split;
       [intros Hin|intros [Hne [Hin|Hin]]]; try subst family; intuition congruence|].
  all: intros gpu calls Hret Ht; unfold CreateLogicalDevice in Hret;
    destruct (vkCreateDevice _ _) as [dev|]; [|discriminate];
    destruct (vkCreateCommandPool _ _ _) as [pool|]; [|discriminate];
    injection Hret as <- _; cbn;
    destruct (Z.eqb_spec (transferQueueFamilyIndex gpuInfo) UINT32_MAX);
    [contradiction|reflexivity].
Qed.

End RegistryClaims.

Lemma InitializeMultiGpu_appends_witness :
  Z.of_nat (length (@vkEnumeratePhysicalDevices
                      (sample_vulkan [1; 2] (fun _ => universal_family)) 1))
    <= UINT32_MAX /\
  length (gpuDevices
            (snd (@InitializeMultiGpu (sample_vulkan [1; 2] (fun _ => universal_family))
                    (registry_of 2) 1 2))) = 4%nat /\
  fst (@InitializeMultiGpu (sample_vulkan [1; 2] (fun _ => universal_family))
         (registry_of 2) 1 0) = true.
Proof.
  assert (Hlen : Z.of_nat (length (@vkEnumeratePhysicalDevices
                                     (sample_vulkan [1; 2] (fun _ => universal_family)) 1))
                 <= UINT32_MAX) by (vm_compute; discriminate).
  split; [exact Hlen|]. split.
  - rewrite (proj1 (@InitializeMultiGpu_appends
                      (sample_vulkan [1; 2] (fun _ => universal_family))
                      (registry_of 2) 1 2)).
    vm_compute. reflexivity.
  - apply (proj2 (@InitializeMultiGpu_appends
                    (sample_vulkan [1; 2] (fun _ => universal_family))
                    (registry_of 2) 1 0) Hlen).
    right. split; vm_compute; discriminate.
Defined.

Lemma CreateLogicalDevice_queue_requests_witness :
  fst (fst (@CreateLogicalDevice (sample_vulkan [1] (fun _ => universal_family)) 1
              (set_families 0 1 2 VkGpuDevice_zero))) = true /\
  transferQueueFamilyIndex (set_families 0 1 2 VkGpuDevice_zero) <> UINT32_MAX /\
  transferQueue
    (snd (fst (@CreateLogicalDevice (sample_vulkan [1] (fun _ => universal_family)) 1
                 (set_families 0 1 2 VkGpuDevice_zero)))) = 2012 /\
  queueFamilyIndex <$> queue_create_infos (set_families 0 1 2 VkGpuDevice_zero)
    = [0; 1].
Proof.
  split; [vm_compute; reflexivity|].
  assert (Ht : transferQueueFamilyIndex (set_families 0 1 2 VkGpuDevice_zero)
               <> UINT32_MAX) by (vm_compute; discriminate).
  split; [exact Ht|]. split; [|reflexivity].
  destruct (@CreateLogicalDevice_queue_requests
              (sample_vulkan [1] (fun _ => universal_family)) 1
              (set_families 0 1 2 VkGpuDevice_zero)) as (_ & _ & _ & Hq).
  etransitivity; [apply (Hq _ _ ltac:(vm_compute; reflexivity) Ht)|].
  vm_compute. reflexivity.
Defined.

Section RegistryQueries.
Context `{Vulkan}.

Lemma registry_new_admitted instance desired :
  family_counts_u32 ->
  Forall gpu_admitted
    (gpuDevices (snd (InitializeMultiGpu VkMultiGpuManager_new instance desired))).
Proof.
  intros Hfam. rewrite InitializeMultiGpu_devices. cbn [gpuDevices VkMultiGpuManager_new app].
  destruct (_ =? 0); [constructor|].
  apply Forall_forall. intros gpu Hin. by apply (brought_up_admitted _ _ _ Hfam Hin).
Qed.

(** X11: on a registry whose records were brought up by
    [InitializeMultiGpu], [SupportsAsyncComputeOnGpu(i)] is true exactly
    when [i] is the index of a registered device and some queue family of
    its physical device has the compute capability, be it the graphics
    family itself. *)
Theorem SupportsAsyncCompute_iff_compute_family (mgr : VkMultiGpuManager) (idx : Z) :
  family_counts_u32 ->
  Forall gpu_admitted (gpuDevices mgr) ->
  0 <= idx ->
  SupportsAsyncComputeOnGpu mgr idx = true <->
  exists gpu,
    GetGpuByIndex mgr idx = Some gpu /\
    exists (k : nat) qf,
      vkGetPhysicalDeviceQueueFamilyProperties (physicalDevice gpu) !! k = Some qf /\
      has_flag (queueFlags qf) VK_QUEUE_COMPUTE_BIT = true.
Proof.
  intros Hfam Hadm Hidx. unfold SupportsAsyncComputeOnGpu, GetGpuByIndex.
  destruct (Z.leb_spec (Z.of_nat (length (gpuDevices mgr))) idx) as [Hout|Hin];
    destruct (Z.ltb_spec idx (Z.of_nat (length (gpuDevices mgr)))) as [Hin'|Hout'];
    try lia.
  - split; [discriminate|]. intros (gpu & Hcontra & _). discriminate.
  - destruct (gpuDevices mgr !! Z.to_nat idx) as [gpu|] eqn:Hgpu.
    2: { apply lookup_ge_None in Hgpu. lia. }
    pose proof (proj1 (Forall_lookup _ _) Hadm _ _ Hgpu) as (_ & _ & Hc & _).
    pose proof (Hfam (physicalDevice gpu)) as Hlen.
    split.
    + intros Hres. exists gpu. split; [reflexivity|].
      destruct (Z.eqb_spec (computeQueueFamilyIndex gpu) UINT32_MAX) as [|Hne];
        [discriminate|].
      destruct Hc as [[Hmax _]|(k & qf & _ & Hk & [Hf _] & _)]; [contradiction|].
      exists k, qf. auto.
    + intros (gpu' & [= <-] & k & qf & Hk & Hf).
      destruct Hc as [[_ Hnone]|(k' & qf' & Hidx' & Hk' & _)].
      * exfalso. apply (Hnone k qf Hk). split; [exact Hf|apply not_elem_of_nil].
      * apply lookup_lt_Some in Hk'.
        destruct (Z.eqb_spec (computeQueueFamilyIndex gpu) UINT32_MAX); [lia|reflexivity].
Qed.

(** X12: the memory passthroughs never touch the device table.  On a valid
    index [AllocateMemory] returns what the driver wrote for that device's
    logical device and issues that one allocation; [FreeMemory] issues one
    release for a non-null handle and nothing at all for the null handle,
    whatever the index. *)
Theorem memory_calls_pass_through
    (mgr : VkMultiGpuManager) (gpuIdx memory : Z) (allocInfo : VkMemoryAllocateInfo) :
  gpuDevices (snd (AllocateMemory mgr gpuIdx allocInfo)) = gpuDevices mgr /\
  gpuDevices (FreeMemory mgr gpuIdx memory) = gpuDevices mgr /\
  FreeMemory mgr gpuIdx VK_NULL_HANDLE = mgr /\
  (forall gpu,
     0 <= gpuIdx -> gpuDevices mgr !! Z.to_nat gpuIdx = Some gpu ->
     AllocateMemory mgr gpuIdx allocInfo
       = (vkAllocateMemory (logicalDevice gpu) allocInfo,
          log_calls [CallAllocateMemory (logicalDevice gpu) allocInfo] mgr) /\
     (memory <> VK_NULL_HANDLE ->
      FreeMemory mgr gpuIdx memory
        = log_calls [CallFreeMemory (logicalDevice gpu) memory] mgr)).
Proof.
  split; [|split; [|split]].
  - unfold AllocateMemory. destruct (_ <=? _); [reflexivity|].
    destruct (gpuDevices mgr !! _); reflexivity.
  - unfold FreeMemory. destruct (_ && _); [|reflexivity].
    destruct (gpuDevices mgr !! _); reflexivity.
  - unfold FreeMemory. rewrite Z.eqb_refl, andb_false_r. reflexivity.
  - intros gpu Hidx Hgpu. apply lookup_lt_Some in Hgpu as Hlt.
    unfold AllocateMemory, FreeMemory.
    destruct (Z.leb_spec (Z.of_nat (length (gpuDevices mgr))) gpuIdx); [lia|].
    destruct (Z.ltb_spec gpuIdx (Z.of_nat (length (gpuDevices mgr)))); [|lia].
    rewrite Hgpu. split; [reflexivity|]. intros Hmem.
    destruct (Z.eqb_spec memory VK_NULL_HANDLE); [contradiction|reflexivity].
Qed.

(** The number of regions a registry with an active device gets. *)
Lemma ComputeFrameRegions_length mgr d :
  1 <= GetActiveGpuCount mgr ->
  exists rs,
    ComputeFrameRegions mgr d = Returns rs /\ (1 <= length rs)%nat.
Proof.
  intros Hn. pose proof (GetActiveGpuCount_range mgr) as Hrange.
  unfold ComputeFrameRegions.
  destruct (distributionMode d);
    try (eexists; split; [apply ComputeHorizontalSplit_returns, Hn|];
         rewrite length_fmap, length_seqZ; lia).
  - eexists. split; [apply ComputeVerticalSplit_returns, Hn|].
    rewrite length_fmap, length_seqZ. lia.
  - eexists. split; [apply ComputeQuadrantSplit_returns|].
    rewrite length_take, length_fmap, std_min_spec. cbn [length]. lia.
Qed.

(** X13: after an [InitializeMultiGpu] that reports success on a fresh
    registry, computing the frame regions returns in every mode, with at
    least one region, for any frame size: the division by the active count
    is safe. *)
Theorem initialised_registry_splits
    (instance desiredGpuCount : Z) (d : VkFrameDistributor) :
  is_u32 desiredGpuCount ->
  Z.of_nat (length (vkEnumeratePhysicalDevices instance)) <= UINT32_MAX ->
  fst (InitializeMultiGpu VkMultiGpuManager_new instance desiredGpuCount) = true ->
  1 <= GetActiveGpuCount
         (snd (InitializeMultiGpu VkMultiGpuManager_new instance desiredGpuCount)) /\
  exists rs,
    ComputeFrameRegions
      (snd (InitializeMultiGpu VkMultiGpuManager_new instance desiredGpuCount)) d
      = Returns rs /\
    rs <> [].
Proof.
  intros Hdes Havail Hok. unfold is_u32 in Hdes.
  assert (Hmax : UINT32_MAX = 2 ^ 32 - 1) by reflexivity.
  assert (Hcount : 1 <= GetActiveGpuCount
            (snd (InitializeMultiGpu VkMultiGpuManager_new instance desiredGpuCount))).
  { unfold InitializeMultiGpu in *.
    rewrite (wrap32_small (Z.of_nat (length (vkEnumeratePhysicalDevices instance))))
      in * by lia.
    destruct (_ =? 0); [discriminate|]. cbn [fst snd] in *.
    match goal with |- context [init_loop 0 ?c ?m] =>
      pose proof (init_loop_length_bounds c 0 m) as Hb;
      change (length (gpuDevices m)) with 0%nat in Hb;
      assert (length c <= Z.to_nat desiredGpuCount)%nat
        by (rewrite length_take, std_min_spec; lia)
    end.
    rewrite GetActiveGpuCount_length by lia.
    apply negb_true_iff, bool_decide_eq_false in Hok.
    destruct (gpuDevices _); [congruence|]. cbn [length]. lia. }
  split; [exact Hcount|].
  destruct (ComputeFrameRegions_length _ d Hcount) as (rs & Hrs & Hlen).
  exists rs. split; [exact Hrs|]. intros ->. cbn in Hlen. lia.
Qed.

End RegistryQueries.

(** * Further properties of the synchronizer *)

Lemma sync_step_lengths s op :
  length (timelineSemaphores (sync_step s op)) = length (timelineSemaphores s) /\
  length (currentFrameIds (sync_step s op)) = length (currentFrameIds s).
Proof.
  destruct op; cbn [sync_step]; try (split; reflexivity).
  - unfold CreateTimelineSemaphore. destruct (_ <=? _); cbn; [split; reflexivity|].
    rewrite length_alter. split; reflexivity.
  - unfold SignalFrameComplete. destruct (_ <? _); cbn; [|split; reflexivity].
    rewrite length_insert. split; reflexivity.
Qed.

Lemma sync_run_lengths ops : forall s,
  length (timelineSemaphores (sync_run s ops)) = length (timelineSemaphores s) /\
  length (currentFrameIds (sync_run s ops)) = length (currentFrameIds s).
Proof.
  induction ops as [|op ops IH]; intros s; [split; reflexivity|].
  cbn [sync_run foldl]. destruct (IH (sync_step s op)) as [Ht Hc].
  destruct (sync_step_lengths s op) as [Ht' Hc']. unfold sync_run in *.
  split; congruence.
Qed.

Lemma new_synchronizer_lengths mgr :
  length (timelineSemaphores (VkMultiGpuSynchronizer_new mgr))
    = Z.to_nat (GetActiveGpuCount mgr) /\
  length (currentFrameIds (VkMultiGpuSynchronizer_new mgr))
    = Z.to_nat (GetActiveGpuCount mgr).
Proof. split; simpl; apply length_replicate. Qed.

(** X14: no call of the synchronizer adds or removes a per-device slot.
    After any sequence of calls on a synchronizer constructed for [count]
    active devices, both of its vectors still have exactly [count]
    entries, so the indices it accepts are those below the count at
    construction, also when the registry has grown since. *)
Theorem synchronizer_keeps_slot_counts (mgr : VkMultiGpuManager) (ops : list SyncOp) :
  length (timelineSemaphores (sync_run (VkMultiGpuSynchronizer_new mgr) ops))
    = Z.to_nat (GetActiveGpuCount mgr) /\
  length (currentFrameIds (sync_run (VkMultiGpuSynchronizer_new mgr) ops))
    = Z.to_nat (GetActiveGpuCount mgr) /\
  sized_for mgr (sync_run (VkMultiGpuSynchronizer_new mgr) ops) /\
  (forall g, counter (sync_run (VkMultiGpuSynchronizer_new mgr) ops) g = None <->
             ~ (0 <= g < GetActiveGpuCount mgr)).
Proof.
  destruct (sync_run_lengths ops (VkMultiGpuSynchronizer_new mgr)) as [Ht Hc].
  destruct (new_synchronizer_lengths mgr) as [Ht0 Hc0]. rewrite Ht0 in Ht. rewrite Hc0 in Hc.
  pose proof (GetActiveGpuCount_range mgr) as Hrange.
  split; [exact Ht|]. split; [exact Hc|]. split; [split; lia|].
  intros g. unfold counter. destruct (Z.leb_spec 0 g) as [Hg|Hg].
  - rewrite lookup_ge_None, Hc. lia.
  - split; [lia|reflexivity].
Qed.

(** The semaphore list of one device along a run. *)
Lemma semaphores_along_run ops : forall s g sems,
  indices_u32 ops -> 0 <= g ->
  timelineSemaphores s !! Z.to_nat g = Some sems ->
  timelineSemaphores (sync_run s ops) !! Z.to_nat g
  = Some (sems ++ replicate (creates_for g ops) VK_NULL_HANDLE).
Proof.
  induction ops as [|op ops IH]; intros s g sems Hwf Hg Hsems.
  - cbn. by rewrite app_nil_r.
  - apply Forall_cons in Hwf as [Hop Hwf].
    cbn [sync_run foldl]. fold (sync_run (sync_step s op) ops).
    apply lookup_lt_Some in Hsems as Hlt.
    destruct op; cbn [sync_step];
      try (unfold creates_for; cbn [List.filter]; by apply IH).
    + apply Forall_cons in Hop as [[Hg' _] _].
      unfold CreateTimelineSemaphore, creates_for. cbn [List.filter].
      destruct (Z.leb_spec (Z.of_nat (length (timelineSemaphores s))) gpuIdx) as [Hout|Hin];
        cbn [snd].
      * destruct (Z.eqb_spec gpuIdx g) as [->|Hne]; [lia|]. by apply IH.
      * destruct (Z.eqb_spec gpuIdx g) as [->|Hne].
        -- rewrite (IH _ g (sems ++ [VK_NULL_HANDLE]) Hwf Hg).
           ++ cbn [length replicate]. rewrite <- app_assoc. reflexivity.
           ++ cbn [timelineSemaphores]. rewrite list_lookup_alter_eq, Hsems. reflexivity.
        -- apply IH; [exact Hwf|exact Hg|].
           cbn [timelineSemaphores]. rewrite list_lookup_alter_ne by lia. exact Hsems.
    + unfold creates_for. cbn [List.filter]. apply IH; [exact Hwf|exact Hg|].
      unfold SignalFrameComplete. destruct (_ <? _); exact Hsems.
Qed.

(** X15: every semaphore the synchronizer hands out and records is the null
    handle.  After any sequence of calls on a fresh synchronizer, the list
    of a device holds one null handle per [CreateTimelineSemaphore] call
    addressed to it, whatever the initial values asked for, and nothing
    else. *)
Theorem recorded_semaphores_are_null
    (mgr : VkMultiGpuManager) (ops : list SyncOp) (g : Z) :
  indices_u32 ops ->
  0 <= g < GetActiveGpuCount mgr ->
  timelineSemaphores (sync_run (VkMultiGpuSynchronizer_new mgr) ops) !! Z.to_nat g
  = Some (replicate (creates_for g ops) VK_NULL_HANDLE).
Proof.
  intros Hwf Hg.
  rewrite (semaphores_along_run ops _ g [] Hwf ltac:(lia)); [reflexivity|].
  cbn [VkMultiGpuSynchronizer_new timelineSemaphores].
  apply lookup_replicate_2. lia.
Qed.

Lemma recorded_semaphores_are_null_witness :
  indices_u32 [OpCreateTimelineSemaphore 1 7; OpSignalFrameComplete 0 3;
               OpCreateTimelineSemaphore 1 9; OpCreateTimelineSemaphore 5 1] /\
  0 <= 1 < GetActiveGpuCount (registry_of 2) /\
  timelineSemaphores
    (sync_run (VkMultiGpuSynchronizer_new (registry_of 2))
       [OpCreateTimelineSemaphore 1 7; OpSignalFrameComplete 0 3;
        OpCreateTimelineSemaphore 1 9; OpCreateTimelineSemaphore 5 1]) !! 1%nat
  = Some [VK_NULL_HANDLE; VK_NULL_HANDLE].
Proof.
  assert (Hwf : indices_u32 [OpCreateTimelineSemaphore 1 7; OpSignalFrameComplete 0 3;
                             OpCreateTimelineSemaphore 1 9; OpCreateTimelineSemaphore 5 1])
    by (repeat constructor; vm_compute; discriminate).
  assert (Hg : 0 <= 1 < GetActiveGpuCount (registry_of 2))
    by (vm_compute; split; [discriminate|reflexivity]).
  split; [exact Hwf|]. split; [exact Hg|].
  exact (recorded_semaphores_are_null (registry_of 2) _ 1 Hwf Hg).
Defined.

Lemma all_null_step s op :
  Forall (Forall (fun sem => sem = VK_NULL_HANDLE)) (timelineSemaphores s) ->
  Forall (Forall (fun sem => sem = VK_NULL_HANDLE)) (timelineSemaphores (sync_step s op)).
Proof.
  intros Hnull. destruct op; cbn [sync_step]; try exact Hnull.
  - unfold CreateTimelineSemaphore. destruct (_ <=? _); cbn [snd timelineSemaphores];
      [exact Hnull|].
    apply Forall_alter; [exact Hnull|].
    intros sems _ Hs. apply Forall_app. split; [exact Hs|]. by repeat constructor.
  - unfold SignalFrameComplete. destruct (_ <? _); exact Hnull.
Qed.

Lemma mjoin_imap_nil {A B} (P : A -> Prop) (l : list A) : forall g : nat -> A -> list B,
  (forall i x, P x -> g i x = []) -> Forall P l -> mjoin (imap g l) = [].
Proof.
  induction l as [|x l IH]; intros g Hg Hl; [reflexivity|].
  apply Forall_cons in Hl as [Hx Hl]. rewrite imap_cons.
  change (g 0%nat x ++ mjoin (imap (g ∘ S) l) = []).
  rewrite (Hg 0%nat x Hx), (IH (g ∘ S)); [reflexivity| |exact Hl].
  intros i y Hy. apply Hg, Hy.
Qed.

Lemma filter_null_handles sems :
  Forall (fun sem => sem = VK_NULL_HANDLE) sems ->
  List.filter (fun sem => negb (sem =? VK_NULL_HANDLE)) sems = [].
Proof.
  induction 1 as [|sem sems -> _ IH]; [reflexivity|].
  cbn [List.filter]. rewrite Z.eqb_refl. exact IH.
Qed.

(** X16: the destructor of the synchronizer never calls [DestroySemaphore].
    Whatever calls were made on a synchronizer since its construction, every
    handle it finds in its lists is null, and the destructor skips null
    handles. *)
Theorem destructor_destroys_no_semaphore (mgr : VkMultiGpuManager) (ops : list SyncOp) :
  VkMultiGpuSynchronizer_destroy_calls (sync_run (VkMultiGpuSynchronizer_new mgr) ops) = [].
Proof.
  unfold VkMultiGpuSynchronizer_destroy_calls.
  apply (mjoin_imap_nil (Forall (fun sem => sem = VK_NULL_HANDLE)));
    [intros i sems Hs; by rewrite filter_null_handles|].
  assert (Hgen : forall ops s,
            Forall (Forall (fun sem => sem = VK_NULL_HANDLE)) (timelineSemaphores s) ->
            Forall (Forall (fun sem => sem = VK_NULL_HANDLE))
              (timelineSemaphores (sync_run s ops))).
  { clear. induction ops as [|op ops IH]; intros s Hs; [exact Hs|].
    apply (IH (sync_step s op)), all_null_step, Hs. }
  apply Hgen. cbn [VkMultiGpuSynchronizer_new timelineSemaphores].
  apply Forall_replicate. constructor.
Qed.

Lemma last_cons_default {A} (c x : A) (l : list A) :
  default c (last (x :: l)) = default x (last l).
Proof.
  revert c x. induction l as [|y l IH]; intros c x; [reflexivity|].
  change (last (x :: y :: l)) with (last (y :: l)).
  rewrite (IH c y), (IH x y). reflexivity.
Qed.

(** X17: the completion counter of a device is the id of the last
    [SignalFrameComplete] addressed to it, whatever was signalled before and
    whatever was done to other devices in between; without any such signal
    it keeps its value (0 on a fresh synchronizer). *)
Theorem counter_is_last_signal
    (s : VkMultiGpuSynchronizer) (ops : list SyncOp) (g c : Z) :
  indices_u32 ops ->
  counter s g = Some c ->
  counter (sync_run s ops) g = Some (default c (last (signals_to g ops))).
Proof.
  revert s c. induction ops as [|op ops IH]; intros s c Hwf Hc; [exact Hc|].
  apply Forall_cons in Hwf as [Hop Hwf].
  cbn [sync_run foldl]. fold (sync_run (sync_step s op) ops).
  rewrite (IH _ _ Hwf (counter_sync_step s op g c Hop Hc)).
  f_equal. unfold signals_to. cbn [omap list_omap].
  destruct op; try reflexivity.
  destruct (gpuIdx =? g); [|reflexivity].
  symmetry. apply last_cons_default.
Qed.

Lemma counter_is_last_signal_witness :
  indices_u32 [OpSignalFrameComplete 0 5; OpSignalFrameComplete 1 9;
               OpSignalFrameComplete 0 3] /\
  counter (VkMultiGpuSynchronizer_new (registry_of 2)) 0 = Some 0 /\
  counter (sync_run (VkMultiGpuSynchronizer_new (registry_of 2))
             [OpSignalFrameComplete 0 5; OpSignalFrameComplete 1 9;
              OpSignalFrameComplete 0 3]) 0 = Some 3.
Proof.
  assert (Hwf : indices_u32 [OpSignalFrameComplete 0 5; OpSignalFrameComplete 1 9;
                             OpSignalFrameComplete 0 3])
    by (repeat constructor; vm_compute; discriminate).
  assert (Hc : counter (VkMultiGpuSynchronizer_new (registry_of 2)) 0 = Some 0)
    by (vm_compute; reflexivity).
  split; [exact Hwf|]. split; [exact Hc|].
  exact (counter_is_last_signal _ _ 0 0 Hwf Hc).
Defined.

(** * Further properties of the memory placement manager *)

(** X18: because every buffer gets the same handle, freeing the handle of
    one allocation erases the placement record of every buffer.  After two
    allocations, freeing the first one's handle leaves no record under the
    second one's handle; and on any manager reached from a fresh one, an
    allocation followed by the release of its handle leaves the buffer map
    empty, whatever was recorded before. *)
Theorem freeing_one_buffer_forgets_all :
  (forall m u1 z1 s1 t1 u2 z2 s2 t2,
     bufferStrategies
       (FreeBuffer (snd (AllocateBuffer (snd (AllocateBuffer m u1 z1 s1 t1)) u2 z2 s2 t2))
          (fst (AllocateBuffer m u1 z1 s1 t1)))
       !! fst (AllocateBuffer (snd (AllocateBuffer m u1 z1 s1 t1)) u2 z2 s2 t2)
     = None) /\
  (forall ops u z s t,
     bufferStrategies
       (FreeBuffer (snd (AllocateBuffer (mem_run VkMultiGpuMemoryManager_new ops) u z s t))
          (fst (AllocateBuffer (mem_run VkMultiGpuMemoryManager_new ops) u z s t)))
     = ∅).
Proof.
  split.
  - intros. rewrite buffers_FreeBuffer. apply lookup_delete_eq.
  - intros ops u z s t. rewrite buffers_FreeBuffer, buffers_AllocateBuffer.
    destruct (only_null_keys_run ops _ only_null_keys_new) as [Hb _].
    apply map_eq. intros h. rewrite lookup_empty.
    destruct (decide (h = VK_NULL_HANDLE)) as [->|Hne].
    + apply lookup_delete_eq.
    + change (fst (AllocateBuffer (mem_run VkMultiGpuMemoryManager_new ops) u z s t))
        with VK_NULL_HANDLE.
      rewrite lookup_delete_ne, lookup_insert_ne by congruence. apply Hb, Hne.
Qed.

Lemma buffers_step_agree m1 m2 op :
  bufferStrategies m1 = bufferStrategies m2 ->
  bufferStrategies (mem_step m1 op) = bufferStrategies (mem_step m2 op).
Proof.
  intros Heq. destruct op; cbn [mem_step];
    rewrite ?buffers_AllocateBuffer, ?buffers_AllocateImage, ?buffers_FreeBuffer,
      ?buffers_FreeImage; try exact Heq; by rewrite Heq.
Qed.

Lemma images_step_agree m1 m2 op :
  imageStrategies m1 = imageStrategies m2 ->
  imageStrategies (mem_step m1 op) = imageStrategies (mem_step m2 op).
Proof.
  intros Heq. destruct op; cbn [mem_step];
    rewrite ?images_AllocateBuffer, ?images_AllocateImage, ?images_FreeBuffer,
      ?images_FreeImage; try exact Heq; by rewrite Heq.
Qed.

Lemma buffers_step_untouched m op :
  touches_buffers op = false -> bufferStrategies (mem_step m op) = bufferStrategies m.
Proof. destruct op; cbn; intros; (reflexivity || discriminate). Qed.

Lemma images_step_untouched m op :
  touches_images op = false -> imageStrategies (mem_step m op) = imageStrategies m.
Proof. destruct op; cbn; intros; (reflexivity || discriminate). Qed.

Lemma buffers_run_filter ops : forall m1 m2,
  bufferStrategies m1 = bufferStrategies m2 ->
  bufferStrategies (mem_run m1 ops)
  = bufferStrategies (mem_run m2 (List.filter touches_buffers ops)).
Proof.
  induction ops as [|op ops IH]; intros m1 m2 Heq; [exact Heq|].
  cbn [mem_run foldl List.filter]. fold (mem_run (mem_step m1 op) ops).
  destruct (touches_buffers op) eqn:Hop.
  - cbn [foldl]. apply IH, buffers_step_agree, Heq.
  - apply IH. rewrite buffers_step_untouched by exact Hop. exact Heq.
Qed.

Lemma images_run_filter ops : forall m1 m2,
  imageStrategies m1 = imageStrategies m2 ->
  imageStrategies (mem_run m1 ops)
  = imageStrategies (mem_run m2 (List.filter touches_images ops)).
Proof.
  induction ops as [|op ops IH]; intros m1 m2 Heq; [exact Heq|].
  cbn [mem_run foldl List.filter]. fold (mem_run (mem_step m1 op) ops).
  destruct (touches_images op) eqn:Hop.
  - cbn [foldl]. apply IH, images_step_agree, Heq.
  - apply IH. rewrite images_step_untouched by exact Hop. exact Heq.
Qed.

(** X19: the buffer records and the image records do not interfere, and the
    copy, replicate, map and unmap calls change neither.  After any
    sequence of calls the buffer map is what the [AllocateBuffer] and
    [FreeBuffer] calls of the sequence alone would have produced, and the
    image map what its [AllocateImage] and [FreeImage] calls alone would
    have produced. *)
Theorem placement_maps_are_independent (m : VkMultiGpuMemoryManager) (ops : list MemOp) :
  bufferStrategies (mem_run m ops)
    = bufferStrategies (mem_run m (List.filter touches_buffers ops)) /\
  imageStrategies (mem_run m ops)
    = imageStrategies (mem_run m (List.filter touches_images ops)).
Proof.
  split; [by apply buffers_run_filter|by apply images_run_filter].
Qed.

(** * The registry properties on the sample driver *)

Lemma sample_family_counts devs :
  @family_counts_u32 (sample_vulkan devs (fun _ => universal_family)).
Proof. intros device. vm_compute. discriminate. Qed.

Lemma InitializeMultiGpu_admits_only_brought_up_witness :
  @family_counts_u32 (sample_vulkan [1; 2] (fun _ => universal_family)) /\
  Forall (@gpu_admitted (sample_vulkan [1; 2] (fun _ => universal_family)))
    (gpuDevices VkMultiGpuManager_new) /\
  Forall (@gpu_admitted (sample_vulkan [1; 2] (fun _ => universal_family)))
    (gpuDevices (registry_of 2)).
Proof.
  assert (Hnew : Forall (@gpu_admitted (sample_vulkan [1; 2] (fun _ => universal_family)))
                   (gpuDevices VkMultiGpuManager_new)) by constructor.
  split; [apply sample_family_counts|]. split; [exact Hnew|].
  exact (@InitializeMultiGpu_admits_only_brought_up
           (sample_vulkan [1; 2] (fun _ => universal_family))
           VkMultiGpuManager_new 1 2 (sample_family_counts [1; 2]) Hnew).
Defined.

Lemma registered_device_ids_witness :
  @family_counts_u32 (sample_vulkan [1; 2; 3] (fun _ => universal_family)) /\
  is_u32 2 /\
  Z.of_nat (length [1; 2; 3]) <= UINT32_MAX /\
  forall (p : nat) gpu,
    gpuDevices
      (snd (@InitializeMultiGpu (sample_vulkan [1; 2; 3] (fun _ => universal_family))
              VkMultiGpuManager_new 1 2)) !! p = Some gpu ->
    Z.of_nat p <= deviceId gpu < 2.
Proof.
  assert (H2 : is_u32 2) by (vm_compute; split; discriminate).
  assert (Hlen : Z.of_nat (length [1; 2; 3]) <= UINT32_MAX) by (vm_compute; discriminate).
  split; [apply sample_family_counts|]. split; [exact H2|]. split; [exact Hlen|].
  intros p gpu Hp.
  exact (proj1 (proj1 (@registered_device_ids
                         (sample_vulkan [1; 2; 3] (fun _ => universal_family)) 1 2
                         (sample_family_counts [1; 2; 3]) H2 Hlen) p gpu Hp)).
Defined.


Lemma registry_of_admitted (n : nat) :
  Forall (@gpu_admitted (sample_vulkan (Z.of_nat <$> seq 1 n) (fun _ => universal_family)))
    (gpuDevices (registry_of n)).
Proof. apply registry_new_admitted, sample_family_counts. Qed.

Lemma SupportsAsyncCompute_iff_compute_family_witness :
  @family_counts_u32 (sample_vulkan [1; 2] (fun _ => universal_family)) /\
  0 <= 1 /\
  (@SupportsAsyncComputeOnGpu (registry_of 2) 1 = true <->
   exists gpu,
     GetGpuByIndex (registry_of 2) 1 = Some gpu /\
     exists (k : nat) qf,
       universal_family !! k = Some qf /\ has_flag (queueFlags qf) 2 = true).
Proof.
  split; [apply sample_family_counts|]. split; [lia|].
  exact (@SupportsAsyncCompute_iff_compute_family
           (sample_vulkan [1; 2] (fun _ => universal_family)) (registry_of 2) 1
           (sample_family_counts [1; 2]) (registry_of_admitted 2) ltac:(lia)).
Defined.

Lemma memory_calls_pass_through_witness :
  0 <= 0 /\ 5 <> VK_NULL_HANDLE /\
  exists gpu,
    gpuDevices (registry_of 2) !! Z.to_nat 0 = Some gpu /\
    @FreeMemory (registry_of 2) 0 5
      = log_calls [CallFreeMemory (logicalDevice gpu) 5] (registry_of 2).
Proof.
  split; [lia|]. split; [discriminate|].
  eexists. split; [vm_compute; reflexivity|].
  apply (@memory_calls_pass_through (sample_vulkan [1; 2] (fun _ => universal_family))
           (registry_of 2) 0 5 {| allocationSize := 64; memoryTypeIndex := 0 |});
    [lia|reflexivity|discriminate].
Defined.

Lemma initialised_registry_splits_witness :
  is_u32 2 /\
  Z.of_nat (length [1; 2]) <= UINT32_MAX /\
  fst (@InitializeMultiGpu (sample_vulkan [1; 2] (fun _ => universal_family))
         VkMultiGpuManager_new 1 2) = true /\
  exists rs,
    ComputeFrameRegions (registry_of 2) (distributor_of SPLIT_FRAME_VERTICAL 640 480)
      = Returns rs /\
    rs <> [].
Proof.
  assert (H2 : is_u32 2) by (vm_compute; split; discriminate).
  assert (Hlen : Z.of_nat (length [1; 2]) <= UINT32_MAX) by (vm_compute; discriminate).
  assert (Hok : fst (@InitializeMultiGpu (sample_vulkan [1; 2] (fun _ => universal_family))
                       VkMultiGpuManager_new 1 2) = true) by (vm_compute; reflexivity).
  split; [exact H2|]. split; [exact Hlen|]. split; [exact Hok|].
  exact (proj2 (@initialised_registry_splits
                  (sample_vulkan [1; 2] (fun _ => universal_family)) 1 2
                  (distributor_of SPLIT_FRAME_VERTICAL 640 480) H2 Hlen Hok)).
Defined.
